(** * Products API: request validation and vector-search orchestration

    A shallow embedding of the request handlers of the products API
    ([src/controllers/productController.ts]), of the schemas they validate
    with ([src/schemas/productSchema.ts]), of the embedding client
    ([src/services/embeddingService.ts]), of the store client
    ([src/services/productService.ts]) and of the store connection singleton
    ([src/services/cosmosdbService.ts]).

    Remote collaborators (the embedding endpoint, the document store, the
    UUID generator, the URL constructor) are opaque: they are the fields of
    a [World] record, and every handler is a function of the world that
    returns its outcome together with the chronological list of the calls
    it made. *)

From Stdlib Require Import List String Ascii Bool Arith ZArith QArith Lia.
From Stdlib Require Import DecimalString NArith.
Import ListNotations.

Set Warnings "-register-all".

Local Open Scope string_scope.
Local Open Scope list_scope.

(* ================================================================= *)
(** ** JavaScript values *)

Module JS.

(** An IEEE double, as far as the handlers can tell doubles apart. *)
Inductive number : Type :=
| Finite (q : Q)
| PosInf
| NegInf
| NaN.

(** What [JSON.parse] (and a failed property read) can produce. *)
Inductive value : Type :=
| VUndefined
| VNull
| VBool (b : bool)
| VNum (n : number)
| VStr (s : string)
| VArr (elems : list value)
| VObj (props : list (string * value)).

(** What a [throw] carries: [error.message] and [error.code]. *)
Record Error : Type := mkError { err_message : string; err_code : value }.

(** An evaluation either produces a value or throws. *)
Inductive outcome (A : Type) : Type :=
| Returned (a : A)
| Thrown (e : Error).
Arguments Returned {A} a.
Arguments Thrown {A} e.

Definition is_zero (q : Q) : bool := (Qnum q =? 0)%Z.

(** ToBoolean. *)
Definition truthy (v : value) : bool :=
  match v with
  | VUndefined | VNull => false
  | VBool b => b
  | VNum (Finite q) => negb (is_zero q)
  | VNum NaN => false
  | VNum _ => true
  | VStr s => negb (String.eqb s "")
  | VArr _ | VObj _ => true
  end.

(** [Number.isInteger]: a finite number with no fractional part. *)
Definition Number_isInteger (v : value) : bool :=
  match v with
  | VNum (Finite q) => (Z.rem (Qnum q) (Z.pos (Qden q)) =? 0)%Z
  | _ => false
  end.

(** [v > 0] on a number; the handlers only evaluate the comparison behind
    [Number.isInteger(v) &&], that is on numbers. *)
Definition gt_zero (v : value) : bool :=
  match v with
  | VNum (Finite q) => (0 <? Qnum q)%Z
  | VNum PosInf => true
  | _ => false
  end.

(** Own property of an object. *)
Fixpoint lookup (k : string) (props : list (string * value)) : value :=
  match props with
  | [] => VUndefined
  | (k', v) :: rest => if String.eqb k k' then v else lookup k rest
  end.

Definition TypeError : Error :=
  mkError "Cannot read properties of undefined" VUndefined.

(** [v.k] for a key [k] that no prototype defines. *)
Definition get (v : value) (k : string) : outcome value :=
  match v with
  | VUndefined | VNull => Thrown TypeError
  | VObj props => Returned (lookup k props)
  | _ => Returned VUndefined
  end.

(** [v[0]]. *)
Definition first (v : value) : outcome value :=
  match v with
  | VUndefined | VNull => Thrown TypeError
  | VArr elems => Returned (nth 0 elems VUndefined)
  | VObj props => Returned (lookup "0" props)
  | VStr (String c _) => Returned (VStr (String c ""))
  | _ => Returned VUndefined
  end.

(** [Array.prototype.join] on an array of strings. *)
Definition join (sep : string) (parts : list string) : string :=
  String.concat sep parts.

(** [String(i)] for an array index. *)
Definition index_to_string (i : nat) : string :=
  NilEmpty.string_of_uint (Nat.to_uint i).

End JS.
Import JS.

(* ================================================================= *)
(** ** The validation library (zod 3.23), as far as the schemas use it *)

Module Zod.

Inductive segment : Type :=
| Key (k : string)
| Index (i : nat).

Record ZodIssue : Type := mkIssue { path : list segment; message : string }.

Inductive SafeParse (A : Type) : Type :=
| Success (data : A)
| Failure (issues : list ZodIssue).
Arguments Success {A} data.
Arguments Failure {A} issues.

Definition schema (A : Type) : Type := value -> SafeParse A.

Definition success {A} (r : SafeParse A) : bool :=
  match r with Success _ => true | Failure _ => false end.

(** The issues of a result; none on success. *)
Definition issues_of {A} (r : SafeParse A) : list ZodIssue :=
  match r with Success _ => [] | Failure l => l end.

Definition getParsedType (v : value) : string :=
  match v with
  | VUndefined => "undefined"
  | VNull => "null"
  | VBool _ => "boolean"
  | VNum NaN => "nan"
  | VNum _ => "number"
  | VStr _ => "string"
  | VArr _ => "array"
  | VObj _ => "object"
  end.

(** The default message of an [invalid_type] issue. *)
Definition invalid_type (expected : string) (v : value) : ZodIssue :=
  match v with
  | VUndefined => mkIssue [] "Required"
  | _ => mkIssue [] ("Expected " ++ expected ++ ", received " ++ getParsedType v)
  end.

Definition under (seg : segment) (i : ZodIssue) : ZodIssue :=
  mkIssue (seg :: path i) (message i).

(** A sub-result, with its issues located under [seg]. *)
Definition at_path {A} (seg : segment) (r : SafeParse A) : SafeParse A :=
  match r with
  | Success a => Success a
  | Failure l => Failure (map (under seg) l)
  end.

(** Both sub-results are computed and the issues of both are kept. *)
Definition ap {A B} (rf : SafeParse (A -> B)) (ra : SafeParse A) : SafeParse B :=
  match rf, ra with
  | Success f, Success a => Success (f a)
  | Success _, Failure l => Failure l
  | Failure l, Success _ => Failure l
  | Failure l1, Failure l2 => Failure (l1 ++ l2)
  end.

Definition string_ : schema string :=
  fun v => match v with
           | VStr s => Success s
           | _ => Failure [invalid_type "string" v]
           end.

(** A string check added with [.uuid()] or [.url()]. *)
Definition refine (s : schema string) (ok : string -> bool) (msg : string)
  : schema string :=
  fun v => match s v with
           | Success str => if ok str then Success str
                            else Failure [mkIssue [] msg]
           | Failure l => Failure l
           end.

Definition number_ : schema number :=
  fun v => match v with
           | VNum NaN => Failure [invalid_type "number" v]
           | VNum n => Success n
           | _ => Failure [invalid_type "number" v]
           end.

Fixpoint elements {A} (s : schema A) (i : nat) (l : list value)
  : SafeParse (list A) :=
  match l with
  | [] => Success []
  | v :: rest => ap (ap (Success cons) (at_path (Index i) (s v)))
                    (elements s (S i) rest)
  end.

Definition array {A} (s : schema A) : schema (list A) :=
  fun v => match v with
           | VArr l => elements s 0 l
           | _ => Failure [invalid_type "array" v]
           end.

Definition optional {A} (s : schema A) : schema (option A) :=
  fun v => match v with
           | VUndefined => Success None
           | _ => ap (Success Some) (s v)
           end.

(** One key of a [z.object] shape, read from the object's properties. *)
Definition field {A} (k : string) (s : schema A) (props : list (string * value))
  : SafeParse A :=
  at_path (Key k) (s (lookup k props)).

Definition is_hex (c : ascii) : bool :=
  existsb (Ascii.eqb c) (list_ascii_of_string "0123456789abcdefABCDEF").

Fixpoint hex_run (n : nat) (cs : list ascii) : option (list ascii) :=
  match n with
  | O => Some cs
  | S n' => match cs with
            | c :: cs' => if is_hex c then hex_run n' cs' else None
            | [] => None
            end
  end.

Definition dash (cs : list ascii) : option (list ascii) :=
  match cs with
  | c :: cs' => if Ascii.eqb c "-" then Some cs' else None
  | [] => None
  end.

Definition andThen {A B} (o : option A) (f : A -> option B) : option B :=
  match o with Some a => f a | None => None end.

(** The pattern of [.uuid()]: hexadecimal groups of 8, 4, 4, 4 and 12
    digits, separated by dashes, and nothing else. *)
Definition is_uuid (s : string) : bool :=
  match andThen (andThen (andThen (andThen (andThen (andThen (andThen (andThen
          (hex_run 8 (list_ascii_of_string s))
          dash) (hex_run 4)) dash) (hex_run 4)) dash) (hex_run 4)) dash)
          (hex_run 12) with
  | Some [] => true
  | _ => false
  end.

Definition uuid : schema string := refine string_ is_uuid "Invalid uuid".

End Zod.
Import Zod.

(* ================================================================= *)
(** ** The schemas ([src/schemas/productSchema.ts]) *)

Record Dimensions : Type := mkDimensions {
  weight : string;
  width : string;
  height : string;
  depth : string
}.

(** [Product = z.infer<typeof productSchema>].  The vector fields hold a
    JavaScript value: [undefined] when absent, and after creation whatever
    the embedding client returned. *)
Record Product : Type := mkProduct {
  id : option string;
  name : string;
  brand : string;
  sku : string;
  category : string;
  price : number;
  currency : string;
  stock : number;
  description : string;
  features : string;
  rating : number;
  reviewsCount : number;
  tags : list string;
  imageUrl : string;
  manufacturer : string;
  model : string;
  releaseDate : string;
  warranty : string;
  dimensions : option Dimensions;
  color : string;
  material : string;
  origin : string;
  descriptionVector : value;
  imageVector : value;
  tagsVector : value;
  featuresVector : value;
  dimensionsVector : value
}.

Declare Scope zod_scope.
Delimit Scope zod_scope with zod.
Notation "rf <*> ra" := (ap rf ra) (at level 50, left associativity) : zod_scope.
Local Open Scope zod_scope.

Definition dimensionsSchema : schema Dimensions :=
  fun v => match v with
           | VObj o => Success mkDimensions
                         <*> field "weight" string_ o
                         <*> field "width" string_ o
                         <*> field "height" string_ o
                         <*> field "depth" string_ o
           | _ => Failure [invalid_type "object" v]
           end.

(** A parsed [z.array(z.number()).optional()], back as a value. *)
Definition vector_value (o : option (list number)) : value :=
  match o with
  | None => VUndefined
  | Some l => VArr (map VNum l)
  end.

Definition vector_ : schema value :=
  fun v => Success vector_value <*> optional (array number_) v.

(** [productSchema]; [new_URL s] tells whether [new URL(s)] succeeds, which
    is what [.url()] checks. *)
Definition productSchema (new_URL : string -> bool) : schema Product :=
  fun v => match v with
           | VObj o => Success mkProduct
                         <*> field "id" (optional uuid) o
                         <*> field "name" string_ o
                         <*> field "brand" string_ o
                         <*> field "sku" string_ o
                         <*> field "category" string_ o
                         <*> field "price" number_ o
                         <*> field "currency" string_ o
                         <*> field "stock" number_ o
                         <*> field "description" string_ o
                         <*> field "features" string_ o
                         <*> field "rating" number_ o
                         <*> field "reviewsCount" number_ o
                         <*> field "tags" (array string_) o
                         <*> field "imageUrl" (refine string_ new_URL "Invalid url") o
                         <*> field "manufacturer" string_ o
                         <*> field "model" string_ o
                         <*> field "releaseDate" string_ o
                         <*> field "warranty" string_ o
                         <*> field "dimensions" (optional dimensionsSchema) o
                         <*> field "color" string_ o
                         <*> field "material" string_ o
                         <*> field "origin" string_ o
                         <*> field "descriptionVector" vector_ o
                         <*> field "imageVector" vector_ o
                         <*> field "tagsVector" vector_ o
                         <*> field "featuresVector" vector_ o
                         <*> field "dimensionsVector" vector_ o
           | _ => Failure [invalid_type "object" v]
           end.

Record ProductID : Type := mkProductID { pid : string }.

Definition productIDSchema : schema ProductID :=
  fun v => match v with
           | VObj o => Success mkProductID <*> field "id" uuid o
           | _ => Failure [invalid_type "object" v]
           end.

Record Tags : Type := mkTags { tags_of : list string }.

Definition tagsSchema : schema Tags :=
  fun v => match v with
           | VObj o => Success mkTags <*> field "tags" (array string_) o
           | _ => Failure [invalid_type "object" v]
           end.

Definition featuresSchema : schema Tags :=
  fun v => match v with
           | VObj o => Success mkTags <*> field "tags" (array string_) o
           | _ => Failure [invalid_type "object" v]
           end.

(* ================================================================= *)
(** ** Calls to the outside, and the handlers' effects *)

(** The three derived vectors; also the call site of an embedding call. *)
Inductive VectorField : Type :=
| DescriptionVector
| TagsVector
| FeaturesVector.

(** What a store call resolves to: a document, or nothing. *)
Inductive resource : Type :=
| RUndefined
| RNull
| RDoc (p : Product).

(** The queries the store client sends: the listing of all documents, and
    the [SELECT TOP @top ... ORDER BY VectorDistance(c.field, @queryVector)]
    of a vector search; both project the same non-vector fields. *)
Inductive Query : Type :=
| SelectAll
| SelectTopByDistance (field : VectorField).

Record SqlQuerySpec : Type := mkQuerySpec {
  query : Query;
  parameters : list (string * value)
}.

(** A call that left the process, with what came back, or a log line. *)
Inductive event : Type :=
| EvEmbed (site : VectorField) (input : value) (reply : outcome value)
| EvCreate (doc : Product) (reply : outcome resource)
| EvRead (id partitionKey : string) (reply : outcome resource)
| EvQuery (spec : SqlQuerySpec) (reply : outcome value)
| EvLog (label detail : string).

Definition trace : Type := list event.

(** The collaborators of one request.  A remote call may answer according
    to everything that happened before it. *)
Record World : Type := mkWorld {
  new_URL : string -> bool;
  uuidv4 : unit -> string;
  axios_post : trace -> value -> outcome value;
  items_create : trace -> Product -> outcome resource;
  item_read : trace -> string -> string -> outcome resource;
  items_query : trace -> SqlQuerySpec -> outcome value
}.

(** An asynchronous computation: from the calls made so far to an outcome
    and the calls made by then. *)
Definition M (A : Type) : Type := trace -> outcome A * trace.

Definition ret {A} (a : A) : M A := fun t => (Returned a, t).

Definition throw {A} (e : Error) : M A := fun t => (Thrown e, t).

Definition bind {A B} (m : M A) (k : A -> M B) : M B :=
  fun t => match m t with
           | (Returned a, t') => k a t'
           | (Thrown e, t') => (Thrown e, t')
           end.

(** [try { m } catch (error) { handler error }]. *)
Definition try_catch {A} (m : M A) (handler : Error -> M A) : M A :=
  fun t => match m t with
           | (Returned a, t') => (Returned a, t')
           | (Thrown e, t') => handler e t'
           end.

Definition lift {A} (o : outcome A) : M A := fun t => (o, t).

(** [await] of a call to the outside: the reply is recorded with the call. *)
Definition await {R} (reply : trace -> outcome R) (record : outcome R -> event)
  : M R :=
  fun t => let r := reply t in (r, t ++ [record r]).

Definition log_error (label detail : string) : M unit :=
  fun t => (Returned tt, t ++ [EvLog label detail]).

Declare Scope monad_scope.
Delimit Scope monad_scope with monad.
Notation "x <- m ;; k" := (bind m (fun x => k))
  (at level 61, m at next level, right associativity) : monad_scope.
Notation "m ;;; k" := (bind m (fun _ => k))
  (at level 61, right associativity) : monad_scope.
Local Open Scope monad_scope.

(** A handler run on a fresh request. *)
Definition run {A} (m : M A) : outcome A * trace := m [].

(* ================================================================= *)
(** ** The embedding client ([src/services/embeddingService.ts]) *)

(** [response.data.data[0].embedding], on the body [response.data]. *)
Definition embedding_of (body : value) : outcome value :=
  match get body "data" with
  | Returned d => match first d with
                  | Returned e => get e "embedding"
                  | Thrown err => Thrown err
                  end
  | Thrown err => Thrown err
  end.

Definition generateTextVector (w : World) (site : VectorField) (text : value)
  : M value :=
  body <- await (fun t => axios_post w t text) (EvEmbed site text) ;;
  lift (embedding_of body).

(* ================================================================= *)
(** ** The store client ([src/services/productService.ts]) *)

Module ProductService.

Definition addProduct (w : World) (product : Product) : M resource :=
  await (fun t => items_create w t product) (EvCreate product).

Definition is_404 (code : value) : bool :=
  match code with
  | VNum (Finite q) => Qeq_bool q (404 # 1)
  | _ => false
  end.

Definition getProductById (w : World) (id : string) : M resource :=
  try_catch
    (await (fun t => item_read w t id id) (EvRead id id))
    (fun error => if is_404 (err_code error) then ret RNull else throw error).

Definition getProducts (w : World) : M value :=
  let querySpec := mkQuerySpec SelectAll [] in
  await (fun t => items_query w t querySpec) (EvQuery querySpec).

Definition ten : value := VNum (Finite (10 # 1)).

(** A parameter declared [top: number = 10]. *)
Definition default_top (top : value) : value :=
  match top with
  | VUndefined => ten
  | _ => top
  end.

(** The three vector searches differ only in the vector they rank by. *)
Definition searchProductsByDescriptionVector (w : World)
  (queryVector top : value) : M value :=
  let top := default_top top in
  let querySpec := mkQuerySpec (SelectTopByDistance DescriptionVector)
                     [("@queryVector", queryVector); ("@top", top)] in
  await (fun t => items_query w t querySpec) (EvQuery querySpec).

Definition searchProductsByTagsVector (w : World)
  (queryVector top : value) : M value :=
  let top := default_top top in
  let querySpec := mkQuerySpec (SelectTopByDistance TagsVector)
                     [("@queryVector", queryVector); ("@top", top)] in
  await (fun t => items_query w t querySpec) (EvQuery querySpec).

Definition searchProductsByFeaturesVector (w : World)
  (queryVector top : value) : M value :=
  let top := default_top top in
  let querySpec := mkQuerySpec (SelectTopByDistance FeaturesVector)
                     [("@queryVector", queryVector); ("@top", top)] in
  await (fun t => items_query w t querySpec) (EvQuery querySpec).

End ProductService.

(* ================================================================= *)
(** ** The request handlers ([src/controllers/productController.ts]) *)

(** The [data] of a success envelope. *)
Inductive payload : Type :=
| Document (r : resource)
| Listing (v : value).

(** The three envelopes the handlers send. *)
Inductive envelope : Type :=
| BodyData (data : payload)
| BodyErrors (errors : list (string * string))
| BodyMessage (message : string).

Record Response : Type := mkResponse { status : nat; json : envelope }.

Definition InternalServerError : Response :=
  mkResponse 500 (BodyMessage "Internal Server Error").

Definition segment_to_string (s : segment) : string :=
  match s with
  | Key k => k
  | Index i => index_to_string i
  end.

(** [{ path: err.path.join('.'), message: err.message }]. *)
Definition format_issue (err : ZodIssue) : string * string :=
  (join "." (map segment_to_string (path err)), message err).

Definition set_id (p : Product) (v : string) : Product :=
  mkProduct (Some v) (name p) (brand p) (sku p) (category p) (price p)
    (currency p) (stock p) (description p) (features p) (rating p)
    (reviewsCount p) (tags p) (imageUrl p) (manufacturer p) (model p)
    (releaseDate p) (warranty p) (dimensions p) (color p) (material p)
    (origin p) (descriptionVector p) (imageVector p) (tagsVector p)
    (featuresVector p) (dimensionsVector p).

Definition set_descriptionVector (p : Product) (v : value) : Product :=
  mkProduct (id p) (name p) (brand p) (sku p) (category p) (price p)
    (currency p) (stock p) (description p) (features p) (rating p)
    (reviewsCount p) (tags p) (imageUrl p) (manufacturer p) (model p)
    (releaseDate p) (warranty p) (dimensions p) (color p) (material p)
    (origin p) v (imageVector p) (tagsVector p)
    (featuresVector p) (dimensionsVector p).

Definition set_tagsVector (p : Product) (v : value) : Product :=
  mkProduct (id p) (name p) (brand p) (sku p) (category p) (price p)
    (currency p) (stock p) (description p) (features p) (rating p)
    (reviewsCount p) (tags p) (imageUrl p) (manufacturer p) (model p)
    (releaseDate p) (warranty p) (dimensions p) (color p) (material p)
    (origin p) (descriptionVector p) (imageVector p) v
    (featuresVector p) (dimensionsVector p).

Definition set_featuresVector (p : Product) (v : value) : Product :=
  mkProduct (id p) (name p) (brand p) (sku p) (category p) (price p)
    (currency p) (stock p) (description p) (features p) (rating p)
    (reviewsCount p) (tags p) (imageUrl p) (manufacturer p) (model p)
    (releaseDate p) (warranty p) (dimensions p) (color p) (material p)
    (origin p) (descriptionVector p) (imageVector p) (tagsVector p)
    v (dimensionsVector p).

(** Truthiness of a string, of an optional string and of a store result. *)
Definition nonempty (s : string) : bool := negb (String.eqb s "").

Definition present (o : option string) : bool :=
  match o with
  | Some s => nonempty s
  | None => false
  end.

Definition found (r : resource) : bool :=
  match r with
  | RDoc _ => true
  | _ => false
  end.

Module productController.

Definition getProducts (w : World) : M Response :=
  try_catch
    (products <- ProductService.getProducts w ;;
     ret (mkResponse 200 (BodyData (Listing products))))
    (fun error =>
       log_error "Error getting products:" (err_message error) ;;;
       ret InternalServerError).

Definition getProductById (w : World) (id : string) : M Response :=
  match productIDSchema (VObj [("id", VStr id)]) with
  | Failure _ =>
      ret (mkResponse 400
             (BodyMessage "Invalid product ID, should be a valid UUID"))
  | Success data =>
      try_catch
        (product <- ProductService.getProductById w (pid data) ;;
         if negb (found product)
         then ret (mkResponse 404 (BodyMessage "Product not found"))
         else ret (mkResponse 200 (BodyData (Document product))))
        (fun error =>
           log_error "Error getting product:" (err_message error) ;;;
           ret InternalServerError)
  end.

Definition createProduct (w : World) (body : value) : M Response :=
  match productSchema (new_URL w) body with
  | Failure issues =>
      ret (mkResponse 400 (BodyErrors (map format_issue issues)))
  | Success product =>
      try_catch
        (let product :=
           if negb (present (id product))
           then set_id product (uuidv4 w tt)
           else product in
         product <-
           (if nonempty (description product)
            then v <- generateTextVector w DescriptionVector
                        (VStr (description product)) ;;
                 ret (set_descriptionVector product v)
            else ret product) ;;
         product <-
           (if (0 <? List.length (tags product))%nat
            then let tagsText := join " " (tags product) in
                 v <- generateTextVector w TagsVector (VStr tagsText) ;;
                 ret (set_tagsVector product v)
            else ret product) ;;
         product <-
           (if nonempty (features product)
            then v <- generateTextVector w FeaturesVector
                        (VStr (features product)) ;;
                 ret (set_featuresVector product v)
            else ret product) ;;
         createdProduct <- ProductService.addProduct w product ;;
         ret (mkResponse 201 (BodyData (Document createdProduct))))
        (fun error =>
           log_error "Error creating product:" (err_message error) ;;;
           ret InternalServerError)
  end.

Definition dq : string := String (ascii_of_nat 34) "".

(** The example that ends both array-validation messages:
    a quoted [queryVector], a colon and a two-item array of quoted items. *)
Definition example_body : string :=
  dq ++ "queryVector" ++ dq ++ " : [" ++ dq ++ "item" ++ dq ++ ","
     ++ dq ++ "item2" ++ dq ++ "].".

(** [top && Number.isInteger(top) && top > 0 ? top : 10]. *)
Definition topResults (top : value) : value :=
  if truthy top && Number_isInteger top && gt_zero top
  then top
  else ProductService.ten.

Definition searchProductsByTagsVector (w : World) (body : value) : M Response :=
  queryTags <- lift (get body "queryTags") ;;
  top <- lift (get body "top") ;;
  match tagsSchema (VObj [("tags", queryTags)]) with
  | Failure _ =>
      ret (mkResponse 400 (BodyMessage
        ("Invalid tags. It should be an array of strings ie " ++ example_body)))
  | Success data =>
      let tagsText := join " " (tags_of data) in
      tagsVector <- generateTextVector w TagsVector (VStr tagsText) ;;
      let topResults := topResults top in
      try_catch
        (results <- ProductService.searchProductsByTagsVector w tagsVector topResults ;;
         ret (mkResponse 200 (BodyData (Listing results))))
        (fun error =>
           log_error "Error searching products by tags:" (err_message error) ;;;
           ret InternalServerError)
  end.

Definition searchProductsByFeaturesVector (w : World) (body : value)
  : M Response :=
  queryFeatures <- lift (get body "queryFeatures") ;;
  top <- lift (get body "top") ;;
  match featuresSchema (VObj [("tags", queryFeatures)]) with
  | Failure _ =>
      ret (mkResponse 400 (BodyMessage
        ("Invalid features. It should be an array of strings ie " ++ example_body)))
  | Success data =>
      let tagsText := join " " (tags_of data) in
      featuresVector <- generateTextVector w FeaturesVector (VStr tagsText) ;;
      let topResults := topResults top in
      try_catch
        (results <- ProductService.searchProductsByFeaturesVector w featuresVector topResults ;;
         ret (mkResponse 200 (BodyData (Listing results))))
        (fun error =>
           log_error "Error searching products by features:" (err_message error) ;;;
           ret InternalServerError)
  end.

Definition searchProductsByDescriptionVector (w : World) (body : value)
  : M Response :=
  queryDescription <- lift (get body "queryDescription") ;;
  top <- lift (get body "top") ;;
  descriptionVector <- generateTextVector w DescriptionVector queryDescription ;;
  let topResults := topResults top in
  try_catch
    (results <- ProductService.searchProductsByDescriptionVector w descriptionVector topResults ;;
     ret (mkResponse 200 (BodyData (Listing results))))
    (fun error =>
       log_error "Error searching products by description:" (err_message error) ;;;
       ret InternalServerError).

End productController.

(* ================================================================= *)
(** ** The store connection singleton ([src/services/cosmosdbService.ts]) *)

Module CosmosDB.

(** Where a run of [init()] stands.  A run is suspended at each of its two
    [await]s until the store replies. *)
Inductive phase : Type :=
| AwaitingDatabase
| AwaitingContainer
| Fulfilled
| Rejected.

(** The instance, the runs of [init()] started on it (oldest first; the
    promise of a run is known by its position) and the number of creation
    calls its client has issued. *)
Record t : Type := mk {
  initialized : bool;
  initializing : option nat;
  productsContainer : bool;
  runs : list phase;
  databases_createIfNotExists : nat;
  containers_createIfNotExists : nat
}.

(** [new CosmosDB()]. *)
Definition instance : t := mk false None false [] 0 0.

(** What an [initialize()] call resolves with: nothing, at once, or the
    outcome of the promise it returned. *)
Inductive answer : Type :=
| Resolved
| Adopts (promise : nat).

Fixpoint update (i : nat) (p : phase) (l : list phase) : list phase :=
  match l, i with
  | [], _ => []
  | _ :: rest, O => p :: rest
  | x :: rest, S i' => x :: update i' p rest
  end.

(** [this.init()], up to its first [await]: the database creation is
    issued and the run is suspended. *)
Definition init (s : t) : t * nat :=
  (mk (initialized s) (initializing s) (productsContainer s)
      (runs s ++ [AwaitingDatabase])
      (S (databases_createIfNotExists s)) (containers_createIfNotExists s),
   List.length (runs s)).

Definition initialize (s : t) : t * answer :=
  if initialized s then (s, Resolved)
  else match initializing s with
       | Some p => (s, Adopts p)
       | None =>
           let (s', p) := init s in
           (mk (initialized s') (Some p) (productsContainer s') (runs s')
               (databases_createIfNotExists s') (containers_createIfNotExists s'),
            Adopts p)
       end.

(** The database reply reaches run [i]: on success the run issues the
    container creation and suspends again, on failure it rethrows. *)
Definition database_reply (i : nat) (ok : bool) (s : t) : t :=
  match nth_error (runs s) i with
  | Some AwaitingDatabase =>
      if ok
      then mk (initialized s) (initializing s) (productsContainer s)
              (update i AwaitingContainer (runs s))
              (databases_createIfNotExists s)
              (S (containers_createIfNotExists s))
      else mk (initialized s) (initializing s) (productsContainer s)
              (update i Rejected (runs s))
              (databases_createIfNotExists s) (containers_createIfNotExists s)
  | _ => s
  end.

(** The container reply reaches run [i]: on success the container is kept
    and [initialized] is set, on failure the run rethrows. *)
Definition container_reply (i : nat) (ok : bool) (s : t) : t :=
  match nth_error (runs s) i with
  | Some AwaitingContainer =>
      if ok
      then mk true (initializing s) true
              (update i Fulfilled (runs s))
              (databases_createIfNotExists s) (containers_createIfNotExists s)
      else mk (initialized s) (initializing s) (productsContainer s)
              (update i Rejected (runs s))
              (databases_createIfNotExists s) (containers_createIfNotExists s)
  | _ => s
  end.

(** What the event loop can run next. *)
Inductive action : Type :=
| CallInitialize
| DatabaseReplies (run : nat) (ok : bool)
| ContainerReplies (run : nat) (ok : bool).

Definition step (a : action) (s : t) : t * list answer :=
  match a with
  | CallInitialize => let (s', r) := initialize s in (s', [r])
  | DatabaseReplies i ok => (database_reply i ok s, [])
  | ContainerReplies i ok => (container_reply i ok s, [])
  end.

(** An interleaving, run from a state; the answers of its [initialize()]
    calls come in call order. *)
Fixpoint exec (schedule : list action) (s : t) : t * list answer :=
  match schedule with
  | [] => (s, [])
  | a :: rest =>
      let (s1, r1) := step a s in
      let (s2, r2) := exec rest s1 in
      (s2, r1 ++ r2)
  end.

(** [getContainer]: fails fast before initialization completes. *)
Definition getProductsContainer (s : t) : outcome bool :=
  if negb (initialized s)
  then Thrown (mkError
         "CosmosDB has not been initialized. Call initialize() first."
         VUndefined)
  else Returned (productsContainer s).

End CosmosDB.

(* ================================================================= *)
(** ** The container definition ([createContainerIfNotExists]) *)

Module Container.

Inductive VectorEmbeddingDataType : Type := Float32 | Uint8 | Int8.

Inductive VectorEmbeddingDistanceFunction : Type := Euclidean | Cosine | DotProduct.

Inductive VectorIndexType : Type := Flat | DiskANN | QuantizedFlat.

Record VectorEmbedding : Type := mkEmbedding {
  embedding_path : string;
  dataType : VectorEmbeddingDataType;
  dimensions : nat;
  distanceFunction : VectorEmbeddingDistanceFunction
}.

Record VectorIndex : Type := mkIndex {
  index_path : string;
  index_type : VectorIndexType
}.

Record IndexingPolicy : Type := mkIndexingPolicy {
  vectorIndexes : list VectorIndex;
  includedPaths : list string;
  excludedPaths : list string
}.

Definition vectorEmbeddingPolicy : list VectorEmbedding :=
  [mkEmbedding "/imageVector" Float32 8 DotProduct;
   mkEmbedding "/descriptionVector" Float32 10 Cosine;
   mkEmbedding "/tagsVector" Float32 10 Cosine;
   mkEmbedding "/featuresVector" Float32 10 Cosine;
   mkEmbedding "/dimensionsVector" Float32 4 Euclidean].

Definition indexingPolicy : IndexingPolicy :=
  mkIndexingPolicy
    [mkIndex "/imageVector" QuantizedFlat;
     mkIndex "/descriptionVector" DiskANN;
     mkIndex "/tagsVector" DiskANN;
     mkIndex "/featuresVector" DiskANN;
     mkIndex "/dimensionsVector" DiskANN]
    ["/*"]
    ["/_etag/?"; "/_rid/?"; "/_etag/?"; "/_attachments/?"; "/_ts/?";
     "/imageVector/*"; "/descriptionVector/*"; "/tagsVector/*";
     "/featuresVector/*"; "/dimensionsVector/*"].

(** The [partitionKey.paths] of the container. *)
Definition partitionKey : list string := ["/id"].

End Container.

(* ================================================================= *)
(** ** The configuration ([src/config/env.ts]) *)

Module Env.

(** [z.string({ required_error, invalid_type_error })]. *)
Definition string_with (required_error invalid_type_error : string)
  : schema string :=
  fun v => match v with
           | VStr s => Success s
           | VUndefined => Failure [mkIssue [] required_error]
           | _ => Failure [mkIssue [] invalid_type_error]
           end.

(** [z.coerce.number()]: the input goes through [Number(...)] first. *)
Definition coerce_number (Number_ : value -> number) : schema number :=
  fun v => number_ (VNum (Number_ v)).

(** [.default(d)]: an absent input is replaced before the inner schema
    runs. *)
Definition default {A} (s : schema A) (d : value) : schema A :=
  fun v => match v with
           | VUndefined => s d
           | _ => s v
           end.

Record Env : Type := mkEnv {
  PORT : number;
  AZURE_COSMOS_DB_ENDPOINT : string;
  AZURE_COSMOS_DB_KEY : string;
  AZURE_COSMOS_DB : string;
  AZURE_OPENAI_API_KEY : string;
  AZURE_OPENAI_TEXT_EMBEDDING_MODEL_ENDPOINT : string
}.

Definition eight_thousand : value := VNum (Finite (8000 # 1)).

Definition EnvSchema (Number_ : value -> number) : schema Env :=
  fun v =>
    match v with
    | VObj o =>
        Success mkEnv
          <*> field "PORT" (default (coerce_number Number_) eight_thousand) o
          <*> field "AZURE_COSMOS_DB_ENDPOINT"
                (string_with "AZURE_COSMOS_DB_ENDPOINT is required"
                             "AZURE_COSMOS_DB_ENDPOINT must be a string") o
          <*> field "AZURE_COSMOS_DB_KEY"
                (string_with "AZURE_COSMOS_DB_KEY is required"
                             "AZURE_COSMOS_DB_KEY must be a string") o
          <*> field "AZURE_COSMOS_DB"
                (string_with "AZURE_COSMOS_DB is required"
                             "AZURE_COSMOS_DB must be a string") o
          <*> field "AZURE_OPENAI_API_KEY"
                (string_with "AZURE_OPENAI_API_KEY is required"
                             "AZURE_OPEN_AI_API_KEY must be a string") o
          <*> field "AZURE_OPENAI_TEXT_EMBEDDING_MODEL_ENDPOINT"
                (string_with "AZURE_OPENAI_TEXT_EMBEDDING_MODEL_ENDPOINT is required"
                             "AZURE_OPENAI_TEXT_EMBEDDING_MODEL_ENDPOINT must be a string") o
    | _ => Failure [invalid_type "object" v]
    end.

(** [process.env]: every variable that is set holds a string. *)
Definition process_env (vars : list (string * string)) : value :=
  VObj (map (fun kv => (fst kv, VStr (snd kv))) vars).

Record Cosmos : Type := mkCosmos {
  endpoint : string;
  key : string;
  database : string
}.

Record AzureOpenAi : Type := mkAzureOpenAi {
  apiKey : string;
  embedding_endPoint : string
}.

Record Config : Type := mkConfig {
  port : number;
  cosmos : Cosmos;
  azureOpenAi : AzureOpenAi
}.

Definition config_of (env : Env) : Config :=
  mkConfig (PORT env)
    (mkCosmos (AZURE_COSMOS_DB_ENDPOINT env) (AZURE_COSMOS_DB_KEY env)
              (AZURE_COSMOS_DB env))
    (mkAzureOpenAi (AZURE_OPENAI_API_KEY env)
                   (AZURE_OPENAI_TEXT_EMBEDDING_MODEL_ENDPOINT env)).

(** The module on load: [EnvSchema.parse(process.env)] throws the issues
    it found, otherwise [config] is built from the parsed variables. *)
Definition config (Number_ : value -> number) (vars : list (string * string))
  : SafeParse Config :=
  match EnvSchema Number_ (process_env vars) with
  | Success env => Success (config_of env)
  | Failure issues => Failure issues
  end.

End Env.

(* ================================================================= *)
(** ** Start-up ([src/services/index.ts], [src/server.ts]) *)

Module Server.







End Server.

(* ================================================================= *)
(** ** The identifier generator (the [uuid] package) *)

(** [uuidv4] is the [v4] of the [uuid] package: it draws 16 random bytes,
    stamps the version and the variant on them and prints them (on Node
    it hands over to [crypto.randomUUID], which prints 16 random bytes the
    same way). *)
Module Uuid.

(** A hexadecimal digit, in lower case. *)
Definition hex_digit (d : N) : ascii :=
  nth (N.to_nat d) (list_ascii_of_string "0123456789abcdef") "0"%char.

(** [byteToHex[b]]: the two digits of a byte. *)
Definition byteToHex (b : N) : list ascii :=
  [hex_digit (N.shiftr b 4); hex_digit (N.land b 15)].

Definition hyphen : list ascii := ["-"%char].

(** [unsafeStringify]: 16 bytes printed in groups of 4, 2, 2, 2 and 6. *)
Definition unsafeStringify (arr : list N) : string :=
  match arr with
  | [b0; b1; b2; b3; b4; b5; b6; b7; b8; b9; b10; b11; b12; b13; b14; b15] =>
      string_of_list_ascii
        (byteToHex b0 ++ byteToHex b1 ++ byteToHex b2 ++ byteToHex b3 ++ hyphen
         ++ byteToHex b4 ++ byteToHex b5 ++ hyphen
         ++ byteToHex b6 ++ byteToHex b7 ++ hyphen
         ++ byteToHex b8 ++ byteToHex b9 ++ hyphen
         ++ byteToHex b10 ++ byteToHex b11 ++ byteToHex b12
         ++ byteToHex b13 ++ byteToHex b14 ++ byteToHex b15)
  | _ => ""
  end.

(** [rnds[6] = (rnds[6] & 0x0f) | 0x40; rnds[8] = (rnds[8] & 0x3f) | 0x80]. *)
Definition stamp (rnds : list N) : list N :=
  match rnds with
  | [b0; b1; b2; b3; b4; b5; b6; b7; b8; b9; b10; b11; b12; b13; b14; b15] =>
      [b0; b1; b2; b3; b4; b5; N.lor (N.land b6 15) 64; b7;
       N.lor (N.land b8 63) 128; b9; b10; b11; b12; b13; b14; b15]
  | _ => rnds
  end.

(** [v4()] on the 16 random bytes it drew. *)
Definition v4 (rnds : list Byte.byte) : string :=
  unsafeStringify (stamp (map Byte.to_N rnds)).

End Uuid.

(* ================================================================= *)
(** ** Sample collaborators and requests *)

Module Samples.

Definition one_vector : value :=
  VArr [VNum (Finite (1 # 10)); VNum (Finite (2 # 10))].

(** A well-formed reply of the embedding endpoint. *)
Definition embedding_reply : value :=
  VObj [("data", VArr [VObj [("embedding", one_vector)]])].

Definition starts_with_https (s : string) : bool := String.prefix "https://" s.

(** Every collaborator answers; the store echoes what it is given and
    holds no document. *)
Definition calm : World :=
  mkWorld starts_with_https
          (fun _ => "b56530fc-cbbb-440d-96d0-d047b3579814")
          (fun _ _ => Returned embedding_reply)
          (fun _ p => Returned (RDoc p))
          (fun _ _ _ => Returned RUndefined)
          (fun _ _ => Returned (VArr [])).

Definition network_error : Error := mkError "connect ECONNREFUSED" (VStr "ECONNREFUSED").

(** The embedding endpoint is unreachable. *)
Definition embedding_down : World :=
  mkWorld starts_with_https
          (fun _ => "b56530fc-cbbb-440d-96d0-d047b3579814")
          (fun _ _ => Thrown network_error)
          (fun _ p => Returned (RDoc p))
          (fun _ _ _ => Returned RUndefined)
          (fun _ _ => Returned (VArr [])).

(** The store is unreachable. *)
Definition store_down : World :=
  mkWorld starts_with_https
          (fun _ => "b56530fc-cbbb-440d-96d0-d047b3579814")
          (fun _ _ => Returned embedding_reply)
          (fun _ _ => Thrown network_error)
          (fun _ _ _ => Thrown network_error)
          (fun _ _ => Thrown network_error).

Definition five : value := VNum (Finite (5 # 1)).

Definition tags_search : value :=
  VObj [("queryTags", VArr [VStr "smart"; VStr "tv"]); ("top", five)].

Definition features_search : value :=
  VObj [("queryFeatures", VArr [VStr "Voice"; VStr "Remote"]); ("top", five)].

Definition description_search : value :=
  VObj [("queryDescription", VStr "smart lighting"); ("top", five)].

(** The second sample product of the README, without identifier. *)
Definition light_bulb : value :=
  VObj [("name", VStr "Smart LED Light Bulb");
        ("brand", VStr "BrightHome");
        ("sku", VStr "SKU-1002");
        ("category", VStr "Home Automation");
        ("price", VNum (Finite (1999 # 100)));
        ("currency", VStr "USD");
        ("stock", VNum (Finite (500 # 1)));
        ("description", VStr "Illuminate your home with smart bulbs");
        ("features", VStr "Wi-Fi Enabled, Voice Control Compatible");
        ("rating", VNum (Finite (43 # 10)));
        ("reviewsCount", VNum (Finite (850 # 1)));
        ("tags", VArr [VStr "lighting"; VStr "smart home"]);
        ("imageUrl", VStr "https://example.com/images/products/SKU-1002.jpg");
        ("manufacturer", VStr "BrightHome Technologies");
        ("model", VStr "BH-SMART-LB");
        ("releaseDate", VStr "2023-07-20");
        ("warranty", VStr "1 year");
        ("dimensions", VObj [("weight", VStr "75g"); ("width", VStr "6cm");
                             ("height", VStr "11cm"); ("depth", VStr "6cm")]);
        ("color", VStr "White");
        ("material", VStr "Plastic");
        ("origin", VStr "China")].

(** [light_bulb] once parsed, and as [createProduct] writes it in [calm]. *)
Definition light_bulb_product : Product :=
  mkProduct None "Smart LED Light Bulb" "BrightHome" "SKU-1002"
    "Home Automation" (Finite (1999 # 100)) "USD" (Finite (500 # 1))
    "Illuminate your home with smart bulbs"
    "Wi-Fi Enabled, Voice Control Compatible"
    (Finite (43 # 10)) (Finite (850 # 1)) ["lighting"; "smart home"]
    "https://example.com/images/products/SKU-1002.jpg"
    "BrightHome Technologies" "BH-SMART-LB" "2023-07-20" "1 year"
    (Some (mkDimensions "75g" "6cm" "11cm" "6cm"))
    "White" "Plastic" "China"
    VUndefined VUndefined VUndefined VUndefined VUndefined.

Definition light_bulb_stored : Product :=
  mkProduct (Some "b56530fc-cbbb-440d-96d0-d047b3579814")
    "Smart LED Light Bulb" "BrightHome" "SKU-1002"
    "Home Automation" (Finite (1999 # 100)) "USD" (Finite (500 # 1))
    "Illuminate your home with smart bulbs"
    "Wi-Fi Enabled, Voice Control Compatible"
    (Finite (43 # 10)) (Finite (850 # 1)) ["lighting"; "smart home"]
    "https://example.com/images/products/SKU-1002.jpg"
    "BrightHome Technologies" "BH-SMART-LB" "2023-07-20" "1 year"
    (Some (mkDimensions "75g" "6cm" "11cm" "6cm"))
    "White" "Plastic" "China"
    one_vector VUndefined one_vector one_vector VUndefined.

(** A world whose embedding endpoint answers with a string where the
    vector should be. *)
Definition garbled : World :=
  mkWorld starts_with_https
          (fun _ => "b56530fc-cbbb-440d-96d0-d047b3579814")
          (fun _ _ => Returned (VObj [("data", VArr [VObj [("embedding", VStr "oops")]])]))
          (fun _ p => Returned (RDoc p))
          (fun _ _ _ => Returned RUndefined)
          (fun _ _ => Returned (VArr [])).

(** A description search whose query is a number. *)
Definition numeric_description_search : value :=
  VObj [("queryDescription", VNum (Finite (42 # 1)))].

(** A create body with three faults: [name] is not a string, the second
    tag is [null], and [dimensions] has none of its keys; every other
    required key is missing as well. *)
Definition faulty_product : value :=
  VObj [("name", VNum NaN);
        ("tags", VArr [VStr "a"; VNull]);
        ("dimensions", VObj [])].

(** The embedding endpoint answers the first call and fails from then on. *)
Definition second_call_fails : World :=
  mkWorld starts_with_https
          (fun _ => "b56530fc-cbbb-440d-96d0-d047b3579814")
          (fun t _ => match t with
                      | [] => Returned embedding_reply
                      | _ => Thrown network_error
                      end)
          (fun _ p => Returned (RDoc p))
          (fun _ _ _ => Returned RUndefined)
          (fun _ _ => Returned (VArr [])).

Definition not_found_error : Error :=
  mkError "Entity with the specified id does not exist in the system."
          (VNum (Finite (404 # 1))).

(** The store throws its 404 error on every read. *)
Definition missing_everywhere : World :=
  mkWorld starts_with_https
          (fun _ => "b56530fc-cbbb-440d-96d0-d047b3579814")
          (fun _ _ => Returned embedding_reply)
          (fun _ p => Returned (RDoc p))
          (fun _ _ _ => Thrown not_found_error)
          (fun _ _ => Returned (VArr [])).

End Samples.
Import Samples.

(* ================================================================= *)
(** ** Vocabulary of the properties *)

Import productController.

(** The three search handlers. *)
Definition search_handlers : list (World -> value -> M Response) :=
  [searchProductsByDescriptionVector;
   searchProductsByTagsVector;
   searchProductsByFeaturesVector].

(** [v] is a number whose value is a positive integer. *)
Definition positive_integer (v : value) : Prop :=
  exists (q : Q) (n : positive), v = VNum (Finite q) /\ q == Z.pos n # 1.

(** The bound parameter [@top] of a query. *)
Definition top_of (spec : SqlQuerySpec) : value := lookup "@top" (parameters spec).

(** The bound parameter [@queryVector] of a query. *)
Definition queryVector_of (spec : SqlQuerySpec) : value :=
  lookup "@queryVector" (parameters spec).

(** What the embedding client makes of the reply to its call. *)
Definition vector_of_reply (reply : outcome value) : outcome value :=
  match reply with
  | Returned body => embedding_of body
  | Thrown e => Thrown e
  end.

(** The issues a schema raises on a value. *)
Definition check {A} (s : schema A) : value -> list ZodIssue :=
  fun v => issues_of (s v).

(** The keys of [productSchema] with the check of each, in the order of
    the schema. *)
Definition product_shape (new_URL : string -> bool)
  : list (string * (value -> list ZodIssue)) :=
  [("id", check (optional uuid));
   ("name", check string_);
   ("brand", check string_);
   ("sku", check string_);
   ("category", check string_);
   ("price", check number_);
   ("currency", check string_);
   ("stock", check number_);
   ("description", check string_);
   ("features", check string_);
   ("rating", check number_);
   ("reviewsCount", check number_);
   ("tags", check (array string_));
   ("imageUrl", check (refine string_ new_URL "Invalid url"));
   ("manufacturer", check string_);
   ("model", check string_);
   ("releaseDate", check string_);
   ("warranty", check string_);
   ("dimensions", check (optional dimensionsSchema));
   ("color", check string_);
   ("material", check string_);
   ("origin", check string_);
   ("descriptionVector", check vector_);
   ("imageVector", check vector_);
   ("tagsVector", check vector_);
   ("featuresVector", check vector_);
   ("dimensionsVector", check vector_)].

(** The issues of every key of a shape on an object, each under its key. *)
Definition violations (shape : list (string * (value -> list ZodIssue)))
  (o : list (string * value)) : list ZodIssue :=
  flat_map (fun kc => map (under (Key (fst kc))) (snd kc (lookup (fst kc) o))) shape.

(** [path.join('.')]. *)
Definition dotted (p : list segment) : string :=
  join "." (map segment_to_string p).

(** [dimensions] as the object it is in a payload. *)
Definition dimensions_value (d : option Dimensions) : value :=
  match d with
  | None => VUndefined
  | Some d => VObj [("weight", VStr (weight d)); ("width", VStr (width d));
                    ("height", VStr (height d)); ("depth", VStr (depth d))]
  end.

(** The fields of a product other than its identifier and its vectors, as
    the values they are in a payload. *)
Definition non_vector_fields (p : Product) : list (string * value) :=
  [("name", VStr (name p));
   ("brand", VStr (brand p));
   ("sku", VStr (sku p));
   ("category", VStr (category p));
   ("price", VNum (price p));
   ("currency", VStr (currency p));
   ("stock", VNum (stock p));
   ("description", VStr (description p));
   ("features", VStr (features p));
   ("rating", VNum (rating p));
   ("reviewsCount", VNum (reviewsCount p));
   ("tags", VArr (map VStr (tags p)));
   ("imageUrl", VStr (imageUrl p));
   ("manufacturer", VStr (manufacturer p));
   ("model", VStr (model p));
   ("releaseDate", VStr (releaseDate p));
   ("warranty", VStr (warranty p));
   ("dimensions", dimensions_value (dimensions p));
   ("color", VStr (color p));
   ("material", VStr (material p));
   ("origin", VStr (origin p))].

(** A field of a record holds what the payload holds: the same value, and
    for a nested object the same value at each of its keys. *)
Definition same_field (recorded sent : value) : Prop :=
  match recorded with
  | VObj fields => forall k v, In (k, v) fields -> get sent k = Returned v
  | _ => sent = recorded
  end.

(** Every non-vector field of [doc] is the field of the payload [body]. *)
Definition preserves (doc : Product) (body : value) : Prop :=
  forall k v, In (k, v) (non_vector_fields doc) ->
    exists sent, get body k = Returned sent /\ same_field v sent.

(** The text a vector is derived from. *)
Definition source_text (f : VectorField) (p : Product) : string :=
  match f with
  | DescriptionVector => description p
  | TagsVector => join " " (tags p)
  | FeaturesVector => features p
  end.

(** The source of a vector is not empty. *)
Definition has_source (f : VectorField) (p : Product) : Prop :=
  match f with
  | DescriptionVector => description p <> ""
  | TagsVector => tags p <> []
  | FeaturesVector => features p <> ""
  end.

Definition vector (f : VectorField) (p : Product) : value :=
  match f with
  | DescriptionVector => descriptionVector p
  | TagsVector => tagsVector p
  | FeaturesVector => featuresVector p
  end.

(** In a run, the vector [f] of [doc] was computed from the source text of
    [p] by an embedding call and attached. *)
Definition computed_and_attached (f : VectorField) (p : Product) (tr : trace)
  (doc : Product) : Prop :=
  exists answer,
    In (EvEmbed f (VStr (source_text f p)) (Returned answer)) tr /\
    embedding_of answer = Returned (vector f doc).

(** [uuidv4()] is what the generator prints for 16 bytes it drew. *)
Definition draws_v4 (w : World) : Prop :=
  exists rnds : list Byte.byte,
    List.length rnds = 16%nat /\ uuidv4 w tt = Uuid.v4 rnds.

(** The embedding endpoint answers every call with a reply that holds an
    embedding. *)
Definition answers_embeddings (w : World) : Prop :=
  forall t text, exists a v,
    axios_post w t text = Returned a /\ embedding_of a = Returned v.

(** The store accepts every write and returns the document it was given,
    up to what it adds to it: same identifier, same non-vector fields. *)
Definition stores_what_it_is_given (w : World) : Prop :=
  forall t doc, exists d,
    items_create w t doc = Returned (RDoc d) /\
    id d = id doc /\
    non_vector_fields d = non_vector_fields doc.

(** The bytes behind the identifier of the sample worlds. *)
Definition sample_bytes : list Byte.byte :=
  [Byte.xb5; Byte.x65; Byte.x30; Byte.xfc; Byte.xcb; Byte.xbb;
   Byte.x04; Byte.x0d; Byte.x16; Byte.xd0; Byte.xd0; Byte.x47;
   Byte.xb3; Byte.x57; Byte.x98; Byte.x14].

(** An error of the store whose [code] is the number 404. *)
Definition code_404 (e : Error) : Prop :=
  exists q : Q, err_code e = VNum (Finite q) /\ q == 404 # 1.

(** The store has no document for a read: the read resolves with no
    resource, or the store throws its 404 error. *)
Definition no_document (reply : outcome resource) : Prop :=
  reply = Returned RUndefined \/
  reply = Returned RNull \/
  exists e, reply = Thrown e /\ code_404 e.

(** What holds of the singleton in every state it can reach: either no
    [initialize()] call was made yet and nothing was issued, or one run of
    [init()] exists, it is the one [initializing] points to, the database
    creation was issued once and the container creation at most once. *)
Definition settled (s : CosmosDB.t) : Prop :=
  (CosmosDB.initializing s = None /\
   CosmosDB.runs s = [] /\
   CosmosDB.initialized s = false /\
   CosmosDB.databases_createIfNotExists s = 0%nat /\
   CosmosDB.containers_createIfNotExists s = 0%nat)
  \/
  (exists ph,
     CosmosDB.initializing s = Some 0%nat /\
     CosmosDB.runs s = [ph] /\
     (CosmosDB.initialized s = true -> ph = CosmosDB.Fulfilled) /\
     CosmosDB.databases_createIfNotExists s = 1%nat /\
     (CosmosDB.containers_createIfNotExists s <= 1)%nat /\
     (ph = CosmosDB.AwaitingDatabase -> CosmosDB.containers_createIfNotExists s = 0%nat) /\
     (ph = CosmosDB.AwaitingContainer -> CosmosDB.containers_createIfNotExists s = 1%nat)).

(** Whether a vector has a source, as the handler tests it. *)
Definition has_source_b (f : VectorField) (p : Product) : bool :=
  match f with
  | DescriptionVector => nonempty (description p)
  | TagsVector => (0 <? List.length (tags p))%nat
  | FeaturesVector => nonempty (features p)
  end.

(** An array of strings. *)
Definition string_array (v : value) : Prop :=
  exists l : list string, v = VArr (map VStr l).

(** A request turned down by validation: answered 400 with a message,
    before any call to the outside. *)
Definition rejected (r : outcome Response * trace) : Prop :=
  exists msg, r = (Returned (mkResponse 400 (BodyMessage msg)), []).

(** A call to the outside, without its arguments and reply. *)
Inductive call : Type :=
| CallEmbed (f : VectorField)
| CallCreate
| CallRead
| CallQuery.

(** The calls of a run, in order; log lines are left out. *)
Definition calls_of (tr : trace) : list call :=
  flat_map (fun ev => match ev with
                      | EvEmbed f _ _ => [CallEmbed f]
                      | EvCreate _ _ => [CallCreate]
                      | EvRead _ _ _ => [CallRead]
                      | EvQuery _ _ => [CallQuery]
                      | EvLog _ _ => []
                      end) tr.

(** The calls a creation of [p] makes when none fails. *)
Definition planned (p : Product) : list call :=
  (if has_source_b DescriptionVector p then [CallEmbed DescriptionVector] else [])
  ++ (if has_source_b TagsVector p then [CallEmbed TagsVector] else [])
  ++ (if has_source_b FeaturesVector p then [CallEmbed FeaturesVector] else [])
  ++ [CallCreate].

(** The keys [productSchema] requires. *)
Definition required_keys : list string :=
  ["name"; "brand"; "sku"; "category"; "price"; "currency"; "stock";
   "description"; "features"; "rating"; "reviewsCount"; "tags"; "imageUrl";
   "manufacturer"; "model"; "releaseDate"; "warranty"; "color"; "material";
   "origin"].

(** A result that fails has at least one issue. *)
Definition honest {A} (r : SafeParse A) : Prop :=
  issues_of r = [] -> success r = true.

(** The body key a search handler reads and the vector it ranks by. *)
Definition array_searches
  : list (string * VectorField * (World -> value -> M Response)) :=
  [("queryTags", TagsVector, searchProductsByTagsVector);
   ("queryFeatures", FeaturesVector, searchProductsByFeaturesVector)].

(** The path of a vector in a stored document. *)
Definition vector_path (f : VectorField) : string :=
  match f with
  | DescriptionVector => "/descriptionVector"
  | TagsVector => "/tagsVector"
  | FeaturesVector => "/featuresVector"
  end.

(** The phase of the one run of a singleton that was started. *)
Definition phase_of (s : CosmosDB.t) : option CosmosDB.phase :=
  nth_error (CosmosDB.runs s) 0.

(** What holds of the flags of the singleton in every state it can reach:
    [initialized] is set, and the container kept, exactly when the run of
    [init()] is fulfilled. *)
Definition coherent (s : CosmosDB.t) : Prop :=
  settled s /\
  (CosmosDB.initialized s = true <-> phase_of s = Some CosmosDB.Fulfilled) /\
  CosmosDB.productsContainer s = CosmosDB.initialized s.

(** The number of [initialize()] calls of a schedule. *)
Definition calls_to_initialize (schedule : list CosmosDB.action) : nat :=
  List.length (filter (fun a => match a with
                                | CosmosDB.CallInitialize => true
                                | _ => false
                                end) schedule).

Definition not_initialized : Error :=
  mkError "CosmosDB has not been initialized. Call initialize() first."
          VUndefined.

(** [Number(...)] as far as the configuration relies on it: a number is
    left as it is. *)
Definition keeps_numbers (Number_ : value -> number) : Prop :=
  forall n, Number_ (VNum n) = n.

(** The variables the configuration requires. *)
Definition required_variables : list string :=
  ["AZURE_COSMOS_DB_ENDPOINT"; "AZURE_COSMOS_DB_KEY"; "AZURE_COSMOS_DB";
   "AZURE_OPENAI_API_KEY"; "AZURE_OPENAI_TEXT_EMBEDDING_MODEL_ENDPOINT"].

(** A variable of [process.env], if set. *)
Fixpoint getenv (k : string) (vars : list (string * string)) : option string :=
  match vars with
  | [] => None
  | (k', v) :: rest => if String.eqb k k' then Some v else getenv k rest
  end.

(** A [Number] for the samples: decimal digits only. *)
Definition sample_Number (v : value) : number :=
  match v with
  | VNum n => n
  | VStr "3000" => Finite (3000 # 1)
  | _ => NaN
  end.

(** The product a payload parses to, or [d] when it is refused. *)
Definition parsed_or (new_URL : string -> bool) (body : value) (d : Product)
  : Product :=
  match productSchema new_URL body with
  | Success p => p
  | Failure _ => d
  end.

(** The first record a run wrote, or [d] when it wrote none. *)
Fixpoint written_or (tr : trace) (d : Product) : Product :=
  match tr with
  | [] => d
  | EvCreate doc _ :: _ => doc
  | _ :: rest => written_or rest d
  end.

(** The store holds the light bulb under every identifier. *)
Definition stocked : World :=
  mkWorld starts_with_https
          (fun _ => "b56530fc-cbbb-440d-96d0-d047b3579814")
          (fun _ _ => Returned embedding_reply)
          (fun _ p => Returned (RDoc p))
          (fun _ _ _ => Returned (RDoc light_bulb_stored))
          (fun _ _ => Returned (VArr [])).

(** A payload that brings its identifier and an image vector, and has no
    features text. *)
Definition labelled_product : value :=
  VObj [("id", VStr "0a1b2c3d-0000-4000-8000-00000000abcd");
        ("imageVector", VArr [VNum (Finite (7 # 1))]);
        ("name", VStr "Smart LED Light Bulb");
        ("brand", VStr "BrightHome");
        ("sku", VStr "SKU-1002");
        ("category", VStr "Home Automation");
        ("price", VNum (Finite (1999 # 100)));
        ("currency", VStr "USD");
        ("stock", VNum (Finite (500 # 1)));
        ("description", VStr "Illuminate your home with smart bulbs");
        ("features", VStr "");
        ("rating", VNum (Finite (43 # 10)));
        ("reviewsCount", VNum (Finite (850 # 1)));
        ("tags", VArr [VStr "lighting"; VStr "smart home"]);
        ("imageUrl", VStr "https://example.com/images/products/SKU-1002.jpg");
        ("manufacturer", VStr "BrightHome Technologies");
        ("model", VStr "BH-SMART-LB");
        ("releaseDate", VStr "2023-07-20");
        ("warranty", VStr "1 year");
        ("color", VStr "White");
        ("material", VStr "Plastic");
        ("origin", VStr "China")].

(** An environment with everything set. *)
Definition full_environment : list (string * string) :=
  [("PORT", "3000");
   ("AZURE_COSMOS_DB_ENDPOINT", "https://products.documents.azure.com:443/");
   ("AZURE_COSMOS_DB_KEY", "key");
   ("AZURE_COSMOS_DB", "productsdb");
   ("AZURE_OPENAI_API_KEY", "secret");
   ("AZURE_OPENAI_TEXT_EMBEDDING_MODEL_ENDPOINT", "https://example.openai.azure.com/embeddings")].

(** A parsed product as the payload it is: the keys of the schema with
    the values of its fields. *)
Definition to_value (p : Product) : value :=
  VObj (("id", match id p with Some s => VStr s | None => VUndefined end)
        :: non_vector_fields p
        ++ [("descriptionVector", descriptionVector p);
            ("imageVector", imageVector p);
            ("tagsVector", tagsVector p);
            ("featuresVector", featuresVector p);
            ("dimensionsVector", dimensionsVector p)]).

(* ================================================================= *)
(** ** Properties of the building blocks *)

Ltac break_match :=
  match goal with
  | |- context [match ?x with _ => _ end] => destruct x eqn:?
  | H : context [match ?x with _ => _ end] |- _ => destruct x eqn:?
  end.

Ltac unfold_handlers :=
  unfold run, searchProductsByDescriptionVector, searchProductsByTagsVector,
    searchProductsByFeaturesVector, createProduct, getProductById, getProducts,
    ProductService.searchProductsByDescriptionVector,
    ProductService.searchProductsByTagsVector,
    ProductService.searchProductsByFeaturesVector,
    ProductService.addProduct,
    ProductService.getProductById, ProductService.getProducts,
    generateTextVector, bind, ret, throw, lift, try_catch, await, log_error in *.



Lemma topResults_defined (top : value) :
  ProductService.default_top (topResults top) = topResults top.
Proof.
  unfold topResults.
  destruct top as [ | | |[q| | |]| | |]; cbn; try reflexivity;
    repeat break_match; reflexivity.
Qed.

(** Case analysis on a run: every collaborator's answer is split. *)
Ltac run_cases H :=
  repeat (cbn beta iota zeta in H;
          match type of H with
          | context [match ?x with _ => _ end] =>
              lazymatch x with
              | context [match _ with _ => _ end] => fail
              | _ => destruct x eqn:?
              end
          end);
  cbn beta iota zeta in H;
  inversion H; subst; clear H.

(** Case analysis on the membership of an event in an explicit trace. *)
Ltac pick_event H :=
  cbn in H;
  repeat (destruct H as [H|H]; [try discriminate|]);
  try contradiction.

(** The only query a search handler sends carries the vector it received
    from the embedding client and [topResults] of the request's [top]. *)
Lemma search_query_parameters (handler : World -> value -> M Response)
  (w : World) (body top : value) (out : outcome Response) (tr : trace)
  (spec : SqlQuerySpec) (reply : outcome value) :
  In handler search_handlers ->
  get body "top" = Returned top ->
  run (handler w body) = (out, tr) ->
  In (EvQuery spec reply) tr ->
  top_of spec = topResults top /\
  exists site input answer,
    In (EvEmbed site input (Returned answer)) tr /\
    embedding_of answer = Returned (queryVector_of spec).
Proof.
  intros Hh Htop Hrun Hin.
  unfold top_of, queryVector_of.
  destruct Hh as [<-|[<-|[<-|[]]]]; unfold_handlers; rewrite Htop in Hrun.
  - run_cases Hrun; pick_event Hin; inversion Hin; subst; cbn;
      rewrite topResults_defined; (split; [reflexivity|]);
      eexists _, _, _; (split; [left; reflexivity|eassumption]).
  - run_cases Hrun; pick_event Hin; inversion Hin; subst; cbn;
      rewrite topResults_defined; (split; [reflexivity|]);
      eexists _, _, _; (split; [left; reflexivity|eassumption]).
  - run_cases Hrun; pick_event Hin; inversion Hin; subst; cbn;
      rewrite topResults_defined; (split; [reflexivity|]);
      eexists _, _, _; (split; [left; reflexivity|eassumption]).
Qed.

(* ================================================================= *)
(** ** The bound of a search (C7) *)



(* ================================================================= *)
(** ** Failures during a search (C1) *)

(** A failed store query is answered with the generic 500, and only the
    log holds the error's message. *)
Lemma search_store_failure (handler : World -> value -> M Response)
  (w : World) (body : value) (out : outcome Response) (tr : trace)
  (spec : SqlQuerySpec) (e : Error) :
  In handler search_handlers ->
  run (handler w body) = (out, tr) ->
  In (EvQuery spec (Thrown e)) tr ->
  out = Returned InternalServerError /\
  exists label, In (EvLog label (err_message e)) tr.
Proof.
  intros Hh Hrun Hin.
  destruct Hh as [<-|[<-|[<-|[]]]]; unfold_handlers;
    run_cases Hrun; pick_event Hin; inversion Hin; subst;
    (split; [reflexivity|]); eexists; cbn; eauto.
Qed.

(** A failed embedding call ends the handler with that error: nothing is
    sent, nothing is logged and the store is not queried. *)
Lemma search_embedding_failure (handler : World -> value -> M Response)
  (w : World) (body : value) (out : outcome Response) (tr : trace)
  (site : VectorField) (input : value) (reply : outcome value) (e : Error) :
  In handler search_handlers ->
  run (handler w body) = (out, tr) ->
  In (EvEmbed site input reply) tr ->
  vector_of_reply reply = Thrown e ->
  out = Thrown e /\ tr = [EvEmbed site input reply].
Proof.
  intros Hh Hrun Hin Hfail.
  destruct Hh as [<-|[<-|[<-|[]]]]; unfold_handlers;
    run_cases Hrun; pick_event Hin; inversion Hin; subst;
    cbn in Hfail; try congruence;
    (split; [congruence|reflexivity]).
Qed.

(** C1, at a request the code does not answer: with the embedding
    endpoint unreachable, each search handler ends with the transport
    error itself instead of a response; the same handlers do answer 500
    when it is the store that is unreachable. *)
Theorem search_embedding_failure_unanswered :
  run (searchProductsByDescriptionVector Samples.embedding_down Samples.description_search)
  = (Thrown Samples.network_error,
     [EvEmbed DescriptionVector (VStr "smart lighting") (Thrown Samples.network_error)]) /\
  run (searchProductsByTagsVector Samples.embedding_down Samples.tags_search)
  = (Thrown Samples.network_error,
     [EvEmbed TagsVector (VStr "smart tv") (Thrown Samples.network_error)]) /\
  run (searchProductsByFeaturesVector Samples.embedding_down Samples.features_search)
  = (Thrown Samples.network_error,
     [EvEmbed FeaturesVector (VStr "Voice Remote") (Thrown Samples.network_error)]) /\
  fst (run (searchProductsByDescriptionVector Samples.store_down Samples.description_search))
  = Returned InternalServerError.
Proof. repeat split; reflexivity. Qed.

(* ================================================================= *)
(** ** The description search validates nothing (C2) *)

(** C2, as stated, fails: a query that is not a string reaches the
    embedding client and then the store, and an embedding that is not an
    array of numbers reaches the store. *)
Lemma description_search_unvalidated :
  success (string_ (VNum (Finite (42 # 1)))) = false /\
  (exists spec reply,
     snd (run (searchProductsByDescriptionVector Samples.calm numeric_description_search))
     = [EvEmbed DescriptionVector (VNum (Finite (42 # 1))) (Returned Samples.embedding_reply);
        EvQuery spec reply]) /\
  success (array number_ (VStr "oops")) = false /\
  (exists spec reply,
     In (EvQuery spec reply)
        (snd (run (searchProductsByDescriptionVector garbled Samples.description_search))) /\
     queryVector_of spec = VStr "oops").
Proof.
  split; [reflexivity|].
  split; [eexists _, _; reflexivity|].
  split; [reflexivity|].
  eexists _, _; split; [cbn; right; left; reflexivity|reflexivity].
Qed.

(** C2, amended. The description search forwards the request's
    [queryDescription] as it is to the embedding client, and whatever
    vector the client returns as it is to the store, whatever their types;
    the store is queried once, right after the embedding call, and only if
    that call returned. *)
Theorem description_search_forwards (w : World) (body qd top : value)
  (out : outcome Response) (tr : trace) :
  get body "queryDescription" = Returned qd ->
  get body "top" = Returned top ->
  run (searchProductsByDescriptionVector w body) = (out, tr) ->
  let reply := axios_post w [] qd in
  match vector_of_reply reply with
  | Thrown e =>
      out = Thrown e /\ tr = [EvEmbed DescriptionVector qd reply]
  | Returned v =>
      exists answer rest,
        tr = EvEmbed DescriptionVector qd reply
             :: EvQuery (mkQuerySpec (SelectTopByDistance DescriptionVector)
                           [("@queryVector", v); ("@top", topResults top)])
                        answer
             :: rest /\
        (forall spec r, ~ In (EvQuery spec r) rest) /\
        (forall site input r, ~ In (EvEmbed site input r) rest)
  end.
Proof.
  intros Hqd Htop Hrun reply; subst reply.
  unfold_handlers; rewrite Hqd, Htop in Hrun.
  unfold vector_of_reply.
  run_cases Hrun; try (split; reflexivity);
    rewrite topResults_defined; cbn;
    eexists _, _; (split; [reflexivity|]);
    split; intros; intros Hin; pick_event Hin.
Qed.

Lemma description_search_forwards_witness :
  exists answer rest,
    snd (run (searchProductsByDescriptionVector Samples.calm numeric_description_search))
    = EvEmbed DescriptionVector (VNum (Finite (42 # 1))) (Returned Samples.embedding_reply)
      :: EvQuery (mkQuerySpec (SelectTopByDistance DescriptionVector)
                    [("@queryVector", Samples.one_vector);
                     ("@top", topResults VUndefined)])
                 answer
      :: rest /\
    (forall spec r, ~ In (EvQuery spec r) rest) /\
    (forall site input r, ~ In (EvEmbed site input r) rest).
Proof.
  apply (description_search_forwards Samples.calm numeric_description_search
           (VNum (Finite (42 # 1))) VUndefined
           (fst (run (searchProductsByDescriptionVector Samples.calm numeric_description_search)))
           (snd (run (searchProductsByDescriptionVector Samples.calm numeric_description_search))));
    reflexivity.
Defined.

(* ================================================================= *)
(** ** Rejected input (C3) *)

Lemma issues_of_ap {A B} (rf : SafeParse (A -> B)) (ra : SafeParse A) :
  issues_of (rf <*> ra) = issues_of rf ++ issues_of ra.
Proof.
  destruct rf, ra; cbn; rewrite ?app_nil_r; reflexivity.
Qed.

Lemma issues_of_field {A} (k : string) (s : schema A) (o : list (string * value)) :
  issues_of (field k s o) = map (under (Key k)) (check s (lookup k o)).
Proof.
  unfold field, check, at_path. destruct (s (lookup k o)); reflexivity.
Qed.

(** On an object, the issues of [productSchema] are those of all its keys:
    no key hides the issues of another. *)
Lemma productSchema_issues (new_URL : string -> bool) (o : list (string * value)) :
  issues_of (productSchema new_URL (VObj o)) = violations (product_shape new_URL) o.
Proof.
  unfold productSchema, violations, product_shape.
  rewrite !issues_of_ap, !issues_of_field.
  cbn [flat_map fst snd issues_of app].
  rewrite app_nil_r, <- !app_assoc. reflexivity.
Qed.

(** The dotted path of an issue raised under a key starts with the key. *)
Lemma dotted_under (k : string) (i : ZodIssue) :
  format_issue (under (Key k) i) = (dotted (Key k :: path i), message i) /\
  String.prefix k (dotted (Key k :: path i)) = true.
Proof.
  split; [reflexivity|].
  unfold dotted, join; cbn [map segment_to_string String.concat].
  assert (Hp : forall a b, String.prefix a (a ++ b)%string = true).
  { induction a as [|c a IH]; intros b; cbn.
    - now destruct b.
    - destruct (ascii_dec c c); [apply IH|congruence]. }
  destruct (map segment_to_string (path i)).
  - assert (Hk : (k ++ "")%string = k) by (clear; induction k; cbn; congruence).
    pose proof (Hp k "") as H. now rewrite Hk in H.
  - apply Hp.
Qed.

(** C3, as stated, fails on the read-by-id path: an identifier that is
    not a UUID is answered with one fixed message, not with the list of
    violated fields that validation produced. *)
Lemma getProductById_single_message :
  issues_of (productIDSchema (VObj [("id", VStr "abc")]))
  = [mkIssue [Key "id"] "Invalid uuid"] /\
  run (getProductById Samples.calm "abc")
  = (Returned (mkResponse 400
                 (BodyMessage "Invalid product ID, should be a valid UUID")), []) /\
  forall errors,
    fst (run (getProductById Samples.calm "abc"))
    <> Returned (mkResponse 400 (BodyErrors errors)).
Proof.
  repeat split; try reflexivity. intros errors; cbn; discriminate.
Qed.

(** C3, amended. A create body that violates the product schema is
    answered 400 with one entry per issue, for every violated key of the
    schema and not only the first, each with a dotted path that starts
    with the key and with the issue's message; an identifier that is not a
    UUID is answered 400 with the fixed message
    [Invalid product ID, should be a valid UUID]. In both cases no
    embedding call and no store call is made. *)
Theorem invalid_input_rejected (w : World) (body : value)
  (issues : list ZodIssue) (id : string) :
  productSchema (new_URL w) body = Failure issues ->
  is_uuid id = false ->
  (run (createProduct w body)
   = (Returned (mkResponse 400 (BodyErrors (map format_issue issues))), []) /\
   (forall o, body = VObj o ->
      issues = violations (product_shape (new_URL w)) o) /\
   (forall o k chk i,
      body = VObj o ->
      In (k, chk) (product_shape (new_URL w)) ->
      In i (chk (lookup k o)) ->
      In (dotted (Key k :: path i), message i) (map format_issue issues) /\
      String.prefix k (dotted (Key k :: path i)) = true)) /\
  run (getProductById w id)
  = (Returned (mkResponse 400
                 (BodyMessage "Invalid product ID, should be a valid UUID")), []).
Proof.
  intros Hparse Hid.
  assert (Hall : forall o, body = VObj o ->
                 issues = violations (product_shape (new_URL w)) o).
  { intros o ->. rewrite <- productSchema_issues, Hparse. reflexivity. }
  split; [split; [|split]|].
  - unfold run, createProduct. rewrite Hparse. reflexivity.
  - exact Hall.
  - intros o k chk i Hbody Hk Hi.
    destruct (dotted_under k i) as [Hfmt Hpre].
    split; [|exact Hpre].
    rewrite <- Hfmt. apply in_map.
    rewrite (Hall o Hbody). unfold violations.
    apply in_flat_map. exists (k, chk). split; [exact Hk|].
    cbn [fst snd]. now apply in_map.
  - unfold run, getProductById, productIDSchema, field, uuid, refine.
    cbn. rewrite Hid. reflexivity.
Qed.

Lemma invalid_input_rejected_witness :
  let issues := issues_of (productSchema Samples.starts_with_https faulty_product) in
  fst (run (createProduct Samples.calm faulty_product))
  = Returned (mkResponse 400 (BodyErrors (map format_issue issues))) /\
  In ("name", "Expected string, received nan") (map format_issue issues) /\
  In ("tags.1", "Expected string, received null") (map format_issue issues) /\
  In ("dimensions.depth", "Required") (map format_issue issues) /\
  fst (run (getProductById Samples.calm "abc"))
  = Returned (mkResponse 400
                (BodyMessage "Invalid product ID, should be a valid UUID")).
Proof.
  intro issues.
  destruct (invalid_input_rejected Samples.calm faulty_product issues "abc")
    as [[Hcreate _] Hget]; [reflexivity | reflexivity |].
  rewrite Hcreate, Hget.
  repeat split; vm_compute; tauto.
Defined.

(* ================================================================= *)
(** ** Creation (C4, C5, C6) *)

(** C4. While a valid product is created, if any of the embedding calls
    fails (the request to the endpoint fails, or its reply holds no
    embedding to read), the store is never written: the request ends with
    the generic 500 and no call to [addProduct] was made. *)
Theorem create_aborts_on_embedding_failure (w : World) (body : value)
  (out : outcome Response) (tr : trace)
  (site : VectorField) (input : value) (reply : outcome value) (e : Error) :
  run (createProduct w body) = (out, tr) ->
  In (EvEmbed site input reply) tr ->
  vector_of_reply reply = Thrown e ->
  out = Returned InternalServerError /\
  (forall doc r, ~ In (EvCreate doc r) tr) /\
  In (EvLog "Error creating product:" (err_message e)) tr.
Proof.
  intros Hrun Hin Hfail.
  unfold_handlers.
  run_cases Hrun; pick_event Hin; inversion Hin; subst;
    cbn in Hfail; try congruence;
    (split; [reflexivity|]);
    (split; [intros doc r Hc; pick_event Hc|]);
    cbn; replace e with e0 by congruence; tauto.
Qed.

Lemma create_aborts_on_embedding_failure_witness :
  fst (run (createProduct second_call_fails Samples.light_bulb))
  = Returned InternalServerError /\
  (forall doc r,
     ~ In (EvCreate doc r) (snd (run (createProduct second_call_fails Samples.light_bulb)))) /\
  In (EvLog "Error creating product:" "connect ECONNREFUSED")
     (snd (run (createProduct second_call_fails Samples.light_bulb))).
Proof.
  apply (create_aborts_on_embedding_failure second_call_fails Samples.light_bulb
           _ _ TagsVector (VStr "lighting smart home")
           (Thrown Samples.network_error) Samples.network_error).
  - reflexivity.
  - simpl; auto.
  - reflexivity.
Defined.

(** *** What a successful parse says about the payload *)

Lemma ap_success {A B} (rf : SafeParse (A -> B)) (ra : SafeParse A) (b : B) :
  rf <*> ra = Success b ->
  exists f a, rf = Success f /\ ra = Success a /\ b = f a.
Proof.
  destruct rf as [f|], ra as [a|]; cbn; intros H; inversion H.
  exists f, a; auto.
Qed.

Lemma field_string (k : string) (o : list (string * value)) (s : string) :
  field k string_ o = Success s -> lookup k o = VStr s.
Proof.
  unfold field, string_. destruct (lookup k o); cbn; congruence.
Qed.

Lemma field_refined (k : string) (ok : string -> bool) (msg : string)
  (o : list (string * value)) (s : string) :
  field k (refine string_ ok msg) o = Success s -> lookup k o = VStr s /\ ok s = true.
Proof.
  unfold field, refine, string_.
  destruct (lookup k o); cbn; try congruence.
  destruct (ok s0) eqn:Hok; cbn; intros H; inversion H; subst; auto.
Qed.

Lemma field_number (k : string) (o : list (string * value)) (n : number) :
  field k number_ o = Success n -> lookup k o = VNum n.
Proof.
  unfold field, number_.
  destruct (lookup k o) as [ | | |[ | | | ]| | | ]; cbn; congruence.
Qed.

Lemma elements_strings (l : list value) (i : nat) (l' : list string) :
  elements string_ i l = Success l' -> l = map VStr l'.
Proof.
  revert i l'; induction l as [|v l IH]; intros i l' H; cbn [elements] in H.
  - inversion H; reflexivity.
  - apply ap_success in H as (f & rest & Hf & Hrest & ->).
    apply ap_success in Hf as (g & s & Hg & Hs & ->).
    inversion Hg; subst g.
    destruct v; cbn in Hs; try discriminate.
    inversion Hs; subst.
    cbn. f_equal. eapply IH; eassumption.
Qed.

Lemma strings_elements (l' : list string) (i : nat) :
  elements string_ i (map VStr l') = Success l'.
Proof.
  revert i; induction l' as [|s l' IH]; intros i; cbn; [reflexivity|].
  now rewrite IH.
Qed.

Lemma field_strings (k : string) (o : list (string * value)) (l : list string) :
  field k (array string_) o = Success l -> lookup k o = VArr (map VStr l).
Proof.
  unfold field, array.
  destruct (lookup k o); cbn; try congruence.
  destruct (elements string_ 0 elems) eqn:He; cbn; try congruence.
  intros H; inversion H; subst. f_equal. eapply elements_strings; eassumption.
Qed.

Lemma at_path_success {A} (seg : segment) (r : SafeParse A) (a : A) :
  at_path seg r = Success a -> r = Success a.
Proof.
  destruct r; cbn; congruence.
Qed.

Lemma dimensionsSchema_success (v : value) (d : Dimensions) :
  dimensionsSchema v = Success d ->
  same_field (dimensions_value (Some d)) v.
Proof.
  unfold dimensionsSchema.
  destruct v as [ | | | | | |o']; try discriminate.
  intros H.
  repeat match goal with
         | H : _ <*> _ = Success _ |- _ =>
             apply ap_success in H as (? & ? & H & ? & ?)
         end.
  inversion H; subst; clear H.
  repeat match goal with
         | H : field _ string_ _ = Success _ |- _ => apply field_string in H
         end.
  intros k' v' Hin; cbn in Hin.
  repeat (destruct Hin as [Hin|Hin]; [inversion Hin; subst; cbn; congruence|]).
  contradiction.
Qed.

Lemma field_dimensions (k : string) (o : list (string * value))
  (d : option Dimensions) :
  field k (optional dimensionsSchema) o = Success d ->
  same_field (dimensions_value d) (lookup k o).
Proof.
  unfold field, optional. intros H; apply at_path_success in H.
  destruct (lookup k o) as [ | | | | | |o'] eqn:Hk;
    try (inversion H; subst; reflexivity);
    apply ap_success in H as (f & a & Hf & Ha & ->);
    inversion Hf; subst f;
    now apply dimensionsSchema_success.
Qed.

Lemma field_identifier (o : list (string * value)) (i : option string) :
  field "id" (optional uuid) o = Success i ->
  (lookup "id" o = VUndefined -> i = None) /\
  (forall s, i = Some s -> lookup "id" o = VStr s /\ is_uuid s = true).
Proof.
  unfold field, optional, uuid, refine, string_.
  destruct (lookup "id" o) eqn:Hid; cbn; try congruence.
  - intros H; inversion H; split; [reflexivity|discriminate].
  - destruct (is_uuid s) eqn:Hu; cbn; try congruence.
    intros H; inversion H; subst.
    split; [discriminate|]. intros s' Hs; inversion Hs; subst; auto.
Qed.

(** A payload that passes [productSchema] is an object whose keys hold
    the non-vector fields of the parsed product. *)
Lemma productSchema_success (new_URL : string -> bool) (body : value) (p : Product) :
  productSchema new_URL body = Success p ->
  preserves p body /\
  (get body "id" = Returned VUndefined -> id p = None) /\
  (forall s, id p = Some s -> get body "id" = Returned (VStr s) /\ is_uuid s = true).
Proof.
  unfold productSchema.
  destruct body as [ | | | | | |o]; try discriminate.
  intros H.
  repeat match goal with
         | H : _ <*> _ = Success _ |- _ =>
             apply ap_success in H as (? & ? & H & ? & ?)
         end.
  inversion H; subst; clear H.
  repeat match goal with
         | H : field _ string_ _ = Success _ |- _ => apply field_string in H
         | H : field _ number_ _ = Success _ |- _ => apply field_number in H
         | H : field _ (array string_) _ = Success _ |- _ => apply field_strings in H
         | H : field _ (refine string_ _ _) _ = Success _ |- _ =>
             apply field_refined in H as [H _]
         | H : field _ (optional dimensionsSchema) _ = Success _ |- _ =>
             apply field_dimensions in H
         | H : field "id" (optional uuid) _ = Success _ |- _ =>
             apply field_identifier in H as [? ?]
         end.
  split; [|split].
  - intros k v Hin. cbn in Hin.
    repeat (destruct Hin as [Hin|Hin];
            [inversion Hin; subst; eexists; split; [reflexivity|]; cbn;
             try assumption|]);
      try contradiction.
  - cbn. intros Hid; inversion Hid; auto.
  - cbn. intros s Hs.
    match goal with
    | Hsome : forall s, _ = Some s -> _ |- _ => destruct (Hsome s Hs) as [-> Hu]
    end.
    auto.
Qed.

Lemma nonempty_true (s : string) : nonempty s = true <-> s <> "".
Proof.
  unfold nonempty. destruct (String.eqb_spec s ""); cbn; split; congruence.
Qed.

Lemma has_elements (A : Type) (l : list A) :
  (0 <? List.length l)%nat = true <-> l <> [].
Proof.
  destruct l; cbn; split; congruence.
Qed.

Lemma has_source_true (f : VectorField) (p : Product) :
  has_source_b f p = true <-> has_source f p.
Proof.
  destruct f; cbn; [apply nonempty_true|apply has_elements|apply nonempty_true].
Qed.

Lemma has_source_false (f : VectorField) (p : Product) :
  has_source_b f p = false <-> ~ has_source f p.
Proof.
  rewrite <- has_source_true. destruct (has_source_b f p); split; congruence.
Qed.

(** The record a creation writes, and the embedding calls made for it. *)
Lemma create_record (w : World) (body : value) (p : Product)
  (out : outcome Response) (tr : trace) (doc : Product) (r : outcome resource) :
  productSchema (new_URL w) body = Success p ->
  run (createProduct w body) = (out, tr) ->
  In (EvCreate doc r) tr ->
  non_vector_fields doc = non_vector_fields p /\
  id doc = (if present (id p) then id p else Some (uuidv4 w tt)) /\
  (forall data, out = Returned (mkResponse 201 (BodyData data)) ->
     exists stored t, r = Returned stored /\ data = Document stored /\
                      items_create w t doc = Returned stored) /\
  forall f,
    (has_source_b f p = true ->
     exists answer,
       In (EvEmbed f (VStr (source_text f p)) (Returned answer)) tr /\
       embedding_of answer = Returned (vector f doc)) /\
    (has_source_b f p = false ->
     vector f doc = vector f p /\
     forall input reply, ~ In (EvEmbed f input reply) tr).
Proof.
  intros Hparse Hrun Hin.
  unfold run, createProduct in Hrun. rewrite Hparse in Hrun.
  unfold_handlers.
  run_cases Hrun; pick_event Hin; inversion Hin; subst; clear Hin;
    cbn [description tags features set_id set_descriptionVector set_tagsVector
         set_featuresVector] in *;
    (split; [reflexivity|]);
    (split; [cbn;
             match goal with
             | |- context [present ?i] => destruct (present i)
             end; cbn in *; congruence|]);
    (split; [intros data Hd; inversion Hd; subst; eauto; fail
            | intros f; destruct f; cbn [has_source_b source_text vector];
              split; intros Hs; try congruence;
              try (eexists; split; [cbn; tauto | cbn; eassumption]);
              (split; [reflexivity | intros input reply Hev; pick_event Hev])]).
Qed.

(** C6. In the record a creation writes, each of the three vectors was
    computed by an embedding call and attached if and only if its source
    is not empty: the description text for [descriptionVector], the
    features text for [featuresVector], the tags array for [tagsVector],
    whose embedding input is the tags joined with one space. A vector with
    an empty source is left as the payload had it. *)
Theorem create_vectors (w : World) (body : value) (p : Product)
  (out : outcome Response) (tr : trace) (doc : Product) (r : outcome resource)
  (f : VectorField) :
  productSchema (new_URL w) body = Success p ->
  run (createProduct w body) = (out, tr) ->
  In (EvCreate doc r) tr ->
  (has_source f p <-> computed_and_attached f p tr doc) /\
  (~ has_source f p -> vector f doc = vector f p) /\
  source_text TagsVector p = String.concat " " (tags p).
Proof.
  intros Hparse Hrun Hin.
  destruct (create_record w body p out tr doc r Hparse Hrun Hin)
    as (_ & _ & _ & Hvec).
  destruct (Hvec f) as [Hyes Hno].
  split; [split|split; [|reflexivity]].
  - intros Hs. apply Hyes. now apply has_source_true.
  - intros (answer & Hev & _).
    apply has_source_true.
    destruct (has_source_b f p); [reflexivity|].
    destruct (Hno eq_refl) as [_ Hnone]. now apply Hnone in Hev.
  - intros Hs. apply Hno. now apply has_source_false.
Qed.

Lemma create_vectors_witness :
  (has_source TagsVector Samples.light_bulb_product <->
   computed_and_attached TagsVector Samples.light_bulb_product
     (snd (run (createProduct Samples.calm Samples.light_bulb)))
     Samples.light_bulb_stored) /\
  (~ has_source TagsVector Samples.light_bulb_product ->
   vector TagsVector Samples.light_bulb_stored
   = vector TagsVector Samples.light_bulb_product) /\
  source_text TagsVector Samples.light_bulb_product
  = String.concat " " (tags Samples.light_bulb_product).
Proof.
  apply (create_vectors Samples.calm Samples.light_bulb Samples.light_bulb_product
           (fst (run (createProduct Samples.calm Samples.light_bulb)))
           (snd (run (createProduct Samples.calm Samples.light_bulb)))
           Samples.light_bulb_stored
           (Returned (RDoc Samples.light_bulb_stored)) TagsVector).
  - reflexivity.
  - reflexivity.
  - simpl; auto.
Defined.

(** With collaborators that answer, a valid payload is created: the
    handler reaches the store and answers 201. *)
Lemma create_succeeds (w : World) (body : value) (p : Product) :
  productSchema (new_URL w) body = Success p ->
  (forall t text, exists a v,
      axios_post w t text = Returned a /\ embedding_of a = Returned v) ->
  (forall t doc, exists r, items_create w t doc = Returned r) ->
  exists doc r,
    fst (run (createProduct w body))
    = Returned (mkResponse 201 (BodyData (Document r))) /\
    In (EvCreate doc (Returned r)) (snd (run (createProduct w body))).
Proof.
  intros Hparse Hembed Hstore.
  destruct (run (createProduct w body)) as [out tr] eqn:Hrun.
  unfold run, createProduct in Hrun. rewrite Hparse in Hrun. unfold_handlers.
  run_cases Hrun;
    repeat match goal with
           | H : axios_post w ?t ?x = _ |- _ =>
               destruct (Hembed t x) as (? & ? & ? & ?); clear Hembed
           | H : items_create w ?t ?d = Thrown _ |- _ =>
               destruct (Hstore t d) as (? & ?); congruence
           end;
    try congruence;
    eexists _, _; (split; [reflexivity|cbn; eauto 8]).
Qed.

(** Where the write stands in a run: after embedding calls that all
    succeeded, followed by the answer the handler gives to its reply. *)
Lemma create_frame (w : World) (body : value) (p : Product)
  (out : outcome Response) (tr : trace) (doc : Product) (r : outcome resource) :
  productSchema (new_URL w) body = Success p ->
  run (createProduct w body) = (out, tr) ->
  In (EvCreate doc r) tr ->
  imageVector doc = imageVector p /\
  dimensionsVector doc = dimensionsVector p /\
  exists pre post,
    tr = pre ++ EvCreate doc r :: post /\
    (forall ev, In ev pre -> exists f i a, ev = EvEmbed f i (Returned a)) /\
    match r with
    | Returned stored =>
        post = [] /\ out = Returned (mkResponse 201 (BodyData (Document stored)))
    | Thrown e =>
        post = [EvLog "Error creating product:" (err_message e)] /\
        out = Returned InternalServerError
    end.
Proof.
  intros Hparse Hrun Hin.
  unfold run, createProduct in Hrun. rewrite Hparse in Hrun. unfold_handlers.
  run_cases Hrun; pick_event Hin; inversion Hin; subst; clear Hin;
    (split; [reflexivity|]); (split; [reflexivity|]);
    cbn [app];
    match goal with
    | |- exists pre post, ?t = _ /\ _ =>
        match t with
        | EvCreate _ _ :: _ => exists []
        | ?a :: EvCreate _ _ :: _ => exists [a]
        | ?a :: ?b :: EvCreate _ _ :: _ => exists [a; b]
        | ?a :: ?b :: ?c :: EvCreate _ _ :: _ => exists [a; b; c]
        end
    end;
    eexists; (split; [reflexivity|]);
    (split; [intros ev Hev; pick_event Hev; subst; eauto|split; reflexivity]).
Qed.

(** Whatever bytes were drawn, what the generator prints has the shape
    the schemas ask of an identifier. *)
Lemma is_hex_digit (d : N) : is_hex (Uuid.hex_digit d) = true.
Proof.
  unfold Uuid.hex_digit.
  destruct (N.to_nat d) as [|[|[|[|[|[|[|[|[|[|[|[|[|[|[|[|[|n]]]]]]]]]]]]]]]]];
    reflexivity.
Qed.

Lemma v4_well_formed (rnds : list Byte.byte) :
  List.length rnds = 16%nat -> is_uuid (Uuid.v4 rnds) = true.
Proof.
  intros Hlen.
  do 16 (destruct rnds as [|? rnds]; [discriminate Hlen|]).
  destruct rnds; [|discriminate Hlen].
  unfold Uuid.v4, is_uuid. cbn [map Uuid.stamp Uuid.unsafeStringify].
  rewrite list_ascii_of_string_of_list_ascii.
  unfold Uuid.byteToHex, Uuid.hyphen.
  cbn [app hex_run dash andThen].
  rewrite !is_hex_digit. cbn [hex_run dash andThen].
  repeat (rewrite ?is_hex_digit; cbn [hex_run dash andThen Ascii.eqb Bool.eqb andb]).
  reflexivity.
Qed.

(** C5. For every valid create payload: every record the handler passes
    to the store has all its non-vector fields equal to the payload's,
    and, when the payload has no identifier, the identifier [uuidv4()]
    just generated, which is well formed; a write the store accepts is
    answered 201 with what the store returned. And the record is written:
    when the embedding endpoint answers and the store stores what it is
    given, the handler does pass such a record to the store and answers
    201 with the stored record, whose identifier and non-vector fields
    are those same ones. *)
Theorem create_assigns_id_and_preserves_fields (w : World) (body : value)
  (p : Product) :
  productSchema (new_URL w) body = Success p ->
  draws_v4 w ->
  (forall doc r,
     In (EvCreate doc r) (snd (run (createProduct w body))) ->
     preserves doc body /\
     (get body "id" = Returned VUndefined ->
      id doc = Some (uuidv4 w tt) /\ is_uuid (uuidv4 w tt) = true) /\
     (forall stored,
        r = Returned stored ->
        fst (run (createProduct w body))
        = Returned (mkResponse 201 (BodyData (Document stored))))) /\
  (answers_embeddings w ->
   stores_what_it_is_given w ->
   exists doc stored,
     In (EvCreate doc (Returned (RDoc stored))) (snd (run (createProduct w body))) /\
     fst (run (createProduct w body))
     = Returned (mkResponse 201 (BodyData (Document (RDoc stored)))) /\
     preserves doc body /\
     preserves stored body /\
     (get body "id" = Returned VUndefined ->
      id doc = Some (uuidv4 w tt) /\
      id stored = Some (uuidv4 w tt) /\
      is_uuid (uuidv4 w tt) = true)).
Proof.
  intros Hparse (rnds & Hlen & Hgen).
  assert (Hwf : is_uuid (uuidv4 w tt) = true)
    by (rewrite Hgen; now apply v4_well_formed).
  destruct (productSchema_success _ _ _ Hparse) as (Hkeep & Hnoid & _).
  destruct (run (createProduct w body)) as [out tr] eqn:Hrun. cbn [fst snd].
  assert (Hdoc : forall doc r,
            In (EvCreate doc r) tr ->
            preserves doc body /\
            (get body "id" = Returned VUndefined ->
             id doc = Some (uuidv4 w tt) /\ is_uuid (uuidv4 w tt) = true) /\
            (forall stored,
               r = Returned stored ->
               out = Returned (mkResponse 201 (BodyData (Document stored))))).
  { intros doc r Hin.
    destruct (create_record w body p out tr doc r Hparse Hrun Hin)
      as (Hsame & Hid & _).
    destruct (create_frame w body p out tr doc r Hparse Hrun Hin)
      as (_ & _ & pre & post & _ & _ & Hend).
    split; [|split].
    - unfold preserves. rewrite Hsame. exact Hkeep.
    - intros Hnone. rewrite Hid, (Hnoid Hnone). cbn. auto.
    - intros stored ->. now destruct Hend. }
  split; [exact Hdoc|].
  intros Hembed Hstore.
  destruct (create_succeeds w body p Hparse Hembed) as (doc & r & Hout & Hin).
  { intros t d. destruct (Hstore t d) as (d' & Hd & _). eauto. }
  rewrite Hrun in Hout, Hin. cbn [fst snd] in Hout, Hin.
  destruct (create_record w body p out tr doc (Returned r) Hparse Hrun Hin)
    as (_ & _ & Hresp & _).
  destruct (Hresp _ Hout) as (stored & t & Hr & _ & Hcreate).
  inversion Hr; subst stored.
  destruct (Hstore t doc) as (d & Hd & Hid & Hfields).
  rewrite Hcreate in Hd. inversion Hd; subst r.
  destruct (Hdoc doc _ Hin) as (Hp & Hi & _).
  exists doc, d. repeat split; try assumption.
  - unfold preserves. rewrite Hfields. exact Hp.
  - now apply Hi.
  - rewrite Hid. now apply Hi.
Qed.

Lemma create_assigns_id_and_preserves_fields_witness :
  run (createProduct calm light_bulb)
  = (Returned (mkResponse 201 (BodyData (Document (RDoc light_bulb_stored)))),
     [EvEmbed DescriptionVector (VStr "Illuminate your home with smart bulbs")
        (Returned embedding_reply);
      EvEmbed TagsVector (VStr "lighting smart home") (Returned embedding_reply);
      EvEmbed FeaturesVector (VStr "Wi-Fi Enabled, Voice Control Compatible")
        (Returned embedding_reply);
      EvCreate light_bulb_stored (Returned (RDoc light_bulb_stored))]) /\
  get light_bulb "id" = Returned VUndefined /\
  id light_bulb_stored = Some (Uuid.v4 sample_bytes) /\
  is_uuid (Uuid.v4 sample_bytes) = true /\
  preserves light_bulb_stored light_bulb /\
  exists doc stored,
    In (EvCreate doc (Returned (RDoc stored))) (snd (run (createProduct calm light_bulb))) /\
    fst (run (createProduct calm light_bulb))
    = Returned (mkResponse 201 (BodyData (Document (RDoc stored)))) /\
    preserves doc light_bulb /\
    preserves stored light_bulb /\
    (get light_bulb "id" = Returned VUndefined ->
     id doc = Some (uuidv4 calm tt) /\
     id stored = Some (uuidv4 calm tt) /\
     is_uuid (uuidv4 calm tt) = true).
Proof.
  destruct (create_assigns_id_and_preserves_fields calm light_bulb
              light_bulb_product) as [Hsafe Hprogress].
  - reflexivity.
  - exists sample_bytes. split; reflexivity.
  - destruct (Hsafe light_bulb_stored (Returned (RDoc light_bulb_stored)))
      as (Hkeep & Hid & _); [simpl; auto 6|].
    destruct (Hid eq_refl) as [Hassigned Hwf].
    split; [reflexivity|]. split; [reflexivity|].
    split; [exact Hassigned|]. split; [exact Hwf|]. split; [exact Hkeep|].
    apply Hprogress.
    + intros t text. exists embedding_reply, one_vector. split; reflexivity.
    + intros t doc. exists doc. repeat split; reflexivity.
Defined.

(* ================================================================= *)
(** ** Reading a product that is not there (C8) *)

(** What the store client makes of the reply to a read. *)
Lemma getProductById_reply (w : World) (id : string) (t : trace) :
  ProductService.getProductById w id t
  = (match item_read w t id id with
     | Returned r => Returned r
     | Thrown e => if ProductService.is_404 (err_code e)
                   then Returned RNull else Thrown e
     end,
     t ++ [EvRead id id (item_read w t id id)]).
Proof.
  unfold ProductService.getProductById, try_catch, await, ret, throw.
  destruct (item_read w t id id) as [r|e]; [reflexivity|].
  destruct (ProductService.is_404 (err_code e)); reflexivity.
Qed.

Lemma is_404_code (e : Error) :
  ProductService.is_404 (err_code e) = true <-> code_404 e.
Proof.
  unfold ProductService.is_404, code_404.
  destruct (err_code e) as [ | | |[q| | |]| | |]; split;
    try discriminate; try (intros (q' & H & _); discriminate H).
  - intros H. exists q. split; [reflexivity|]. now apply Qeq_bool_iff.
  - intros (q' & H & Hq). inversion H; subst. now apply Qeq_bool_iff.
Qed.

(** What the store client and the handler make of each reply to a read:
    the store's 404 error becomes [null], a read that resolves is passed
    on as it is, every other error is rethrown; the handler answers 404
    exactly when the store has no document, and 500 on every other
    error. *)
Lemma getProductById_signals (w : World) (id : string) :
  is_uuid id = true ->
  let reply := item_read w [] id id in
  (forall e, reply = Thrown e -> code_404 e ->
     run (ProductService.getProductById w id)
     = (Returned RNull, [EvRead id id reply])) /\
  (forall e, reply = Thrown e -> ~ code_404 e ->
     run (ProductService.getProductById w id)
     = (Thrown e, [EvRead id id reply])) /\
  (forall r, reply = Returned r ->
     run (ProductService.getProductById w id)
     = (Returned r, [EvRead id id reply])) /\
  (no_document reply <->
   fst (run (getProductById w id))
   = Returned (mkResponse 404 (BodyMessage "Product not found"))) /\
  (forall e, reply = Thrown e -> ~ code_404 e ->
     run (getProductById w id)
     = (Returned InternalServerError,
        [EvRead id id reply; EvLog "Error getting product:" (err_message e)])).
Proof.
  intros Hid reply.
  assert (Hparse : productIDSchema (VObj [("id", VStr id)]) = Success (mkProductID id)).
  { unfold productIDSchema, field, uuid, refine. cbn. now rewrite Hid. }
  assert (Hservice : run (ProductService.getProductById w id)
                     = (match reply with
                        | Returned r => Returned r
                        | Thrown e => if ProductService.is_404 (err_code e)
                                      then Returned RNull else Thrown e
                        end, [EvRead id id reply]))
    by (unfold run; rewrite getProductById_reply; reflexivity).
  assert (Hhandler : run (getProductById w id)
                     = match reply with
                       | Returned r =>
                           (if found r
                            then Returned (mkResponse 200 (BodyData (Document r)))
                            else Returned (mkResponse 404 (BodyMessage "Product not found")),
                            [EvRead id id reply])
                       | Thrown e =>
                           if ProductService.is_404 (err_code e)
                           then (Returned (mkResponse 404 (BodyMessage "Product not found")),
                                 [EvRead id id reply])
                           else (Returned InternalServerError,
                                 [EvRead id id reply;
                                  EvLog "Error getting product:" (err_message e)])
                       end).
  { unfold run, getProductById. rewrite Hparse.
    unfold try_catch, bind, ret, log_error. cbn [pid].
    rewrite getProductById_reply. fold reply.
    destruct reply as [r|e]; [destruct (found r); reflexivity|].
    destruct (ProductService.is_404 (err_code e)); reflexivity. }
  rewrite Hhandler, Hservice. clear Hhandler Hservice.
  split; [|split; [|split; [|split]]].
  - intros e -> Hc. apply is_404_code in Hc. now rewrite Hc.
  - intros e -> Hc.
    destruct (ProductService.is_404 (err_code e)) eqn:Hcode; [|reflexivity].
    apply is_404_code in Hcode. contradiction.
  - intros r ->. reflexivity.
  - unfold no_document. destruct reply as [r|e].
    + destruct r; cbn; split; intros H;
        try reflexivity; try discriminate; auto.
      destruct H as [H|[H|(e & H & _)]]; discriminate.
    + destruct (ProductService.is_404 (err_code e)) eqn:Hcode; cbn [fst]; split.
      * reflexivity.
      * intros _. right; right. exists e. split; [reflexivity|].
        now apply is_404_code.
      * intros [H|[H|(e' & H & Hc)]]; try discriminate.
        inversion H; subst e'. apply is_404_code in Hc. congruence.
      * unfold InternalServerError. discriminate.
  - intros e -> Hc.
    destruct (ProductService.is_404 (err_code e)) eqn:Hcode; [|reflexivity].
    apply is_404_code in Hcode. contradiction.
Qed.

(** C8. The store client is to return [null] for a well-formed
    identifier whose document is absent. It does not where the read
    resolves: when the read of an absent document resolves with no
    resource, the client returns that [undefined], not the [null] its
    documentation names; nothing is thrown and the handler still answers
    404. When the store throws its 404 error the client does return
    [null], and any other error is rethrown. *)
Theorem getProductById_absent_is_undefined :
  let id := "b56530fc-cbbb-440d-96d0-d047b3579814" in
  is_uuid id = true /\
  item_read calm [] id id = Returned RUndefined /\
  run (ProductService.getProductById calm id)
  = (Returned RUndefined, [EvRead id id (Returned RUndefined)]) /\
  RUndefined <> RNull /\
  fst (run (getProductById calm id))
  = Returned (mkResponse 404 (BodyMessage "Product not found")) /\
  run (ProductService.getProductById missing_everywhere id)
  = (Returned RNull, [EvRead id id (Thrown not_found_error)]) /\
  run (ProductService.getProductById store_down id)
  = (Thrown network_error, [EvRead id id (Thrown network_error)]).
Proof.
  repeat split; try reflexivity. discriminate.
Qed.

(* ================================================================= *)
(** ** One initialization (C9) *)

Lemma settled_instance : settled CosmosDB.instance.
Proof.
  left; cbn; auto.
Qed.

Lemma settled_step (a : CosmosDB.action) (s : CosmosDB.t) :
  settled s -> settled (fst (CosmosDB.step a s)).
Proof.
  intros [(Hi & Hr & Hd & Hdb & Hc)|(ph & Hi & Hr & Hd & Hdb & Hc & Hc0 & Hc1)];
    destruct s as [done pending box rs dbs cs]; cbn in *; subst.
  - destruct a as [|i ok|i ok]; cbn.
    + right; exists CosmosDB.AwaitingDatabase; cbn; repeat split; auto; discriminate.
    + unfold CosmosDB.database_reply; cbn. destruct i; cbn; left; cbn; auto.
    + unfold CosmosDB.container_reply; cbn. destruct i; cbn; left; cbn; auto.
  - destruct a as [|i ok|i ok]; cbn.
    + unfold CosmosDB.initialize; cbn.
      destruct done; cbn; right; exists ph; cbn; repeat split; auto.
    + unfold CosmosDB.database_reply; cbn.
      destruct i as [|i]; cbn;
        [|destruct i; cbn; right; exists ph; cbn; repeat split; auto].
      destruct ph; cbn; try (right; eexists; cbn; repeat split; eauto; fail).
      destruct ok; cbn; right; eexists; cbn; repeat split; eauto;
        try discriminate; try (intros Hdone; specialize (Hd Hdone); discriminate);
        rewrite Hc0 by reflexivity; auto.
    + unfold CosmosDB.container_reply; cbn.
      destruct i as [|i]; cbn;
        [|destruct i; cbn; right; exists ph; cbn; repeat split; auto].
      destruct ph; cbn; try (right; eexists; cbn; repeat split; eauto; fail).
      destruct ok; cbn; right; eexists; cbn; repeat split; eauto;
        try discriminate; intros Hdone; specialize (Hd Hdone); discriminate.
Qed.

Lemma exec_cons (a : CosmosDB.action) (rest : list CosmosDB.action) (s : CosmosDB.t) :
  CosmosDB.exec (a :: rest) s
  = (fst (CosmosDB.exec rest (fst (CosmosDB.step a s))),
     snd (CosmosDB.step a s) ++ snd (CosmosDB.exec rest (fst (CosmosDB.step a s)))).
Proof.
  cbn [CosmosDB.exec].
  destruct (CosmosDB.step a s) as [s1 r1]; cbn [fst snd].
  destruct (CosmosDB.exec rest s1) as [s2 r2]; reflexivity.
Qed.

Lemma settled_exec (schedule : list CosmosDB.action) (s : CosmosDB.t) :
  settled s -> settled (fst (CosmosDB.exec schedule s)).
Proof.
  revert s; induction schedule as [|a rest IH]; intros s Hs.
  - exact Hs.
  - rewrite exec_cons; cbn [fst]. apply IH. now apply settled_step.
Qed.

(** In a settled state, an [initialize()] call is answered at once or
    with the promise of the one run. *)
Lemma settled_answer (s : CosmosDB.t) :
  settled s ->
  (CosmosDB.initialized s = true -> CosmosDB.initialize s = (s, CosmosDB.Resolved)) /\
  (CosmosDB.initialized s = false ->
   snd (CosmosDB.initialize s) = CosmosDB.Adopts 0 /\
   (CosmosDB.initializing s <> None -> fst (CosmosDB.initialize s) = s)).
Proof.
  intros Hs. unfold CosmosDB.initialize. split; intros Hdone; rewrite Hdone.
  - reflexivity.
  - destruct Hs as [(Hi & Hr & _)|(ph & Hi & _)]; rewrite Hi; cbn.
    + rewrite Hr. split; [reflexivity|congruence].
    + split; reflexivity.
Qed.

Lemma settled_answers (schedule : list CosmosDB.action) (s : CosmosDB.t)
  (a : CosmosDB.answer) :
  settled s ->
  In a (snd (CosmosDB.exec schedule s)) ->
  a = CosmosDB.Resolved \/ a = CosmosDB.Adopts 0.
Proof.
  revert s; induction schedule as [|x rest IH]; intros s Hs Hin.
  - destruct Hin.
  - rewrite exec_cons in Hin; cbn [snd] in Hin.
    apply in_app_or in Hin as [Hin|Hin].
    + destruct x; cbn in Hin; try contradiction.
      destruct (CosmosDB.initialize s) as [s' r] eqn:Hcall; cbn in Hin.
      destruct Hin as [<-|[]].
      destruct (settled_answer s Hs) as [Hyes Hno].
      destruct (CosmosDB.initialized s).
      * rewrite Hyes in Hcall by reflexivity. inversion Hcall; auto.
      * destruct (Hno eq_refl) as [Hans _]. rewrite Hcall in Hans. cbn in Hans; auto.
    + eapply IH; [|exact Hin]. now apply settled_step.
Qed.

(** Once [initialize()] was called, a run exists, and it stays. *)
Lemma started_exec (schedule : list CosmosDB.action) (s : CosmosDB.t) :
  settled s ->
  CosmosDB.initializing s <> None \/ In CosmosDB.CallInitialize schedule ->
  CosmosDB.initializing (fst (CosmosDB.exec schedule s)) <> None.
Proof.
  revert s; induction schedule as [|x rest IH]; intros s Hs Hor.
  - destruct Hor as [H|[]]. exact H.
  - rewrite exec_cons; cbn [fst].
    apply IH; [now apply settled_step|].
    destruct Hor as [Hstarted|[->|Hin]].
    + left. destruct x; cbn.
      * unfold CosmosDB.initialize.
        destruct (CosmosDB.initialized s); [exact Hstarted|].
        destruct (CosmosDB.initializing s) eqn:Hi; cbn; congruence.
      * unfold CosmosDB.database_reply.
        destruct (nth_error (CosmosDB.runs s) run0) as [[| | |]|]; try exact Hstarted;
          destruct ok; exact Hstarted.
      * unfold CosmosDB.container_reply.
        destruct (nth_error (CosmosDB.runs s) run0) as [[| | |]|]; try exact Hstarted;
          destruct ok; exact Hstarted.
    + left. cbn. unfold CosmosDB.initialize.
      destruct Hs as [(Hi & Hr & Hd & _)|(ph & Hi & _)].
      * rewrite Hd, Hi. cbn. discriminate.
      * destruct (CosmosDB.initialized s); cbn; rewrite ?Hi; cbn; rewrite ?Hi;
          discriminate.
    + right. exact Hin.
Qed.

(** Any number of calls made before the store replies: one creation call
    is issued and every caller holds the promise of the same run. *)
Lemma concurrent_first_calls (n : nat) :
  let s1 := CosmosDB.mk false (Some 0%nat) false [CosmosDB.AwaitingDatabase] 1 0 in
  CosmosDB.exec (repeat CosmosDB.CallInitialize (S n)) CosmosDB.instance
  = (s1, repeat (CosmosDB.Adopts 0) (S n)).
Proof.
  intros s1.
  assert (Hrest : forall m, CosmosDB.exec (repeat CosmosDB.CallInitialize m) s1
                            = (s1, repeat (CosmosDB.Adopts 0) m)).
  { assert (Hstep : CosmosDB.step CosmosDB.CallInitialize s1
                     = (s1, [CosmosDB.Adopts 0])) by reflexivity.
    induction m as [|m IH]; [reflexivity|].
    cbn [repeat]. rewrite exec_cons, Hstep. cbn [fst snd].
    rewrite IH. reflexivity. }
  cbn [repeat]. rewrite exec_cons.
  change (fst (CosmosDB.step CosmosDB.CallInitialize CosmosDB.instance)) with s1.
  rewrite Hrest. reflexivity.
Qed.

(** C9. Whatever [initialize()] calls and store replies are interleaved
    on the singleton, the database creation and the container creation
    are each issued at most once, and the database creation exactly once
    as soon as one call was made; every call made before initialization
    completes is answered with the promise of the same run, without
    starting another, and every call made after it completed returns at
    once. *)
Theorem initialize_once (schedule : list CosmosDB.action) :
  let s := fst (CosmosDB.exec schedule CosmosDB.instance) in
  let answers := snd (CosmosDB.exec schedule CosmosDB.instance) in
  (CosmosDB.databases_createIfNotExists s <= 1)%nat /\
  (CosmosDB.containers_createIfNotExists s <= 1)%nat /\
  List.length (CosmosDB.runs s) = CosmosDB.databases_createIfNotExists s /\
  (In CosmosDB.CallInitialize schedule ->
   CosmosDB.databases_createIfNotExists s = 1%nat) /\
  (forall a, In a answers -> a = CosmosDB.Resolved \/ a = CosmosDB.Adopts 0) /\
  (CosmosDB.initialized s = false ->
   snd (CosmosDB.initialize s) = CosmosDB.Adopts 0 /\
   (CosmosDB.initializing s <> None -> fst (CosmosDB.initialize s) = s)) /\
  (CosmosDB.initialized s = true ->
   CosmosDB.initialize s = (s, CosmosDB.Resolved)).
Proof.
  intros s answers.
  assert (Hs : settled s) by (apply settled_exec, settled_instance).
  destruct (settled_answer s Hs) as [Hyes Hno].
  assert (Hstart : In CosmosDB.CallInitialize schedule ->
                   CosmosDB.initializing s <> None).
  { intros Hin. apply started_exec; [apply settled_instance|now right]. }
  repeat split; try (apply Hno; assumption); try (apply Hyes; assumption).
  - destruct Hs as [(_ & _ & _ & -> & _)|(ph & _ & _ & _ & -> & _)]; lia.
  - destruct Hs as [(_ & _ & _ & _ & ->)|(ph & _ & _ & _ & _ & H & _)]; lia.
  - destruct Hs as [(_ & -> & _ & -> & _)|(ph & _ & -> & _ & -> & _)]; reflexivity.
  - intros Hin. specialize (Hstart Hin).
    destruct Hs as [(Hi & _)|(ph & _ & _ & _ & H & _)]; [congruence|exact H].
  - intros a Hin. eapply settled_answers; [apply settled_instance|exact Hin].
Qed.

(* ================================================================= *)
(** ** The two array validators (C10) *)

Lemma tagsSchema_success (v : value) (d : Tags) :
  tagsSchema v = Success d <->
  exists o, v = VObj o /\ lookup "tags" o = VArr (map VStr (tags_of d)).
Proof.
  unfold tagsSchema. split.
  - destruct v as [ | | | | | |o]; try discriminate.
    intros H. apply ap_success in H as (f & l & Hf & Hl & ->).
    inversion Hf; subst f. apply field_strings in Hl.
    exists o. auto.
  - intros (o & -> & Ho). unfold field, array. rewrite Ho.
    rewrite strings_elements. destruct d; reflexivity.
Qed.

(** The array validators accept exactly the arrays of strings. *)
Lemma tagsSchema_accepts (q : value) :
  success (tagsSchema (VObj [("tags", q)])) = true <-> string_array q.
Proof.
  split.
  - destruct (tagsSchema (VObj [("tags", q)])) as [d|] eqn:H; [|discriminate].
    intros _. apply tagsSchema_success in H as (o & Ho & Hl).
    inversion Ho; subst o. cbn in Hl. exists (tags_of d). exact Hl.
  - intros (l & ->).
    assert (H : tagsSchema (VObj [("tags", VArr (map VStr l))]) = Success (mkTags l)).
    { apply tagsSchema_success. eexists; split; reflexivity. }
    now rewrite H.
Qed.

(** C10, as stated, fails in its last part: the two endpoints do not
    accept the same bodies. A body with [queryTags] is searched by the
    tags endpoint and turned down by the features endpoint. *)
Lemma search_bodies_differ :
  fst (run (searchProductsByTagsVector Samples.calm Samples.tags_search))
  = Returned (mkResponse 200 (BodyData (Listing (VArr [])))) /\
  rejected (run (searchProductsByFeaturesVector Samples.calm Samples.tags_search)) /\
  ~ rejected (run (searchProductsByTagsVector Samples.calm Samples.tags_search)).
Proof.
  split; [reflexivity|]. split.
  - eexists; reflexivity.
  - intros (msg & H). cbn in H. discriminate.
Qed.

(** C10, amended. The two validators are the same function: on every
    value both succeed or both fail, with equal results, and they succeed
    exactly on the objects whose [tags] is an array of strings. Each
    endpoint applies it to its own field of the body: the tags search
    turns a body down exactly when its [queryTags] is not an array of
    strings, the features search exactly when its [queryFeatures] is
    not. *)
Theorem search_validators_equal (w : World) (v body q : value) (key : string)
  (handler : World -> value -> M Response) :
  (key, handler) = ("queryTags", searchProductsByTagsVector) \/
  (key, handler) = ("queryFeatures", searchProductsByFeaturesVector) ->
  get body key = Returned q ->
  featuresSchema v = tagsSchema v /\
  (forall d, tagsSchema v = Success d <->
             exists o, v = VObj o /\ lookup "tags" o = VArr (map VStr (tags_of d))) /\
  (rejected (run (handler w body)) <-> ~ string_array q).
Proof.
  intros Hwhich Hq.
  split; [reflexivity|]. split; [intros d; apply tagsSchema_success|].
  assert (Hget : exists top, get body "top" = Returned top).
  { destruct body; cbn in Hq |- *; try discriminate; eauto. }
  destruct Hget as [top Htop].
  rewrite <- tagsSchema_accepts.
  destruct Hwhich as [Hw|Hw]; inversion Hw; subst; clear Hw;
    unfold run, searchProductsByTagsVector, searchProductsByFeaturesVector,
      bind, lift; rewrite Hq, Htop;
    change (featuresSchema (VObj [("tags", q)])) with (tagsSchema (VObj [("tags", q)]));
    destruct (tagsSchema (VObj [("tags", q)])) as [d|issues]; cbn [success].
  - split; [|congruence].
    intros (msg & H). exfalso. revert H. unfold_handlers.
    destruct (axios_post w [] _); cbn; [destruct (embedding_of _)|]; cbn;
      try discriminate.
    destruct (items_query w _ _); cbn; discriminate.
  - split; [discriminate|]. intros _. eexists; reflexivity.
  - split; [|congruence].
    intros (msg & H). exfalso. revert H. unfold_handlers.
    destruct (axios_post w [] _); cbn; [destruct (embedding_of _)|]; cbn;
      try discriminate.
    destruct (items_query w _ _); cbn; discriminate.
  - split; [discriminate|]. intros _. eexists; reflexivity.
Qed.

Lemma search_validators_equal_witness :
  featuresSchema (VObj [("tags", VNull)]) = tagsSchema (VObj [("tags", VNull)]) /\
  (forall d, tagsSchema (VObj [("tags", VNull)]) = Success d <->
             exists o, VObj [("tags", VNull)] = VObj o /\
                       lookup "tags" o = VArr (map VStr (tags_of d))) /\
  (rejected (run (searchProductsByFeaturesVector Samples.calm Samples.tags_search)) <->
   ~ string_array VUndefined).
Proof.
  apply (search_validators_equal Samples.calm (VObj [("tags", VNull)])
           Samples.tags_search VUndefined "queryFeatures"
           searchProductsByFeaturesVector).
  - right; reflexivity.
  - reflexivity.
Defined.

(* ================================================================= *)
(** ** Further properties of the handlers *)

Lemma topResults_range (top : value) : positive_integer (topResults top).
Proof.
  unfold topResults.
  destruct (truthy top && Number_isInteger top && gt_zero top) eqn:Htest.
  - apply andb_prop in Htest as [Htest Hpos]; apply andb_prop in Htest as [_ Hint].
    destruct top as [ | | |[q| | |]| | |]; try discriminate.
    cbn in Hint, Hpos.
    apply Z.eqb_eq in Hint; apply Z.ltb_lt in Hpos.
    apply Z.rem_divide in Hint as [k Hk]; [|lia].
    destruct k as [|k|k]; try lia.
    exists q, k; split; [reflexivity|].
    unfold Qeq; cbn [Qnum Qden]; lia.
  - exists (10 # 1), 10%positive. split; reflexivity.
Qed.

(** X1. Whatever the request holds in [top], the bound a search handler
    sends to the store is a positive integer. *)
Theorem search_bound_is_positive (handler : World -> value -> M Response)
  (w : World) (body : value) (spec : SqlQuerySpec) (reply : outcome value) :
  In handler search_handlers ->
  In (EvQuery spec reply) (snd (run (handler w body))) ->
  positive_integer (top_of spec).
Proof.
  intros Hh Hin.
  destruct (get body "top") as [top|e] eqn:Htop.
  - destruct (search_query_parameters handler w body top
                (fst (run (handler w body))) (snd (run (handler w body)))
                spec reply Hh Htop) as [-> _];
      [now destruct (run (handler w body))|exact Hin|].
    apply topResults_range.
  - exfalso.
    destruct body; try discriminate;
      destruct Hh as [<-|[<-|[<-|[]]]]; cbn in Hin; exact Hin.
Qed.

Lemma search_bound_is_positive_witness :
  positive_integer
    (top_of (mkQuerySpec (SelectTopByDistance TagsVector)
               [("@queryVector", one_vector); ("@top", five)])).
Proof.
  apply (search_bound_is_positive searchProductsByTagsVector calm tags_search
           _ (Returned (VArr []))).
  - simpl; auto.
  - simpl; auto.
Defined.

(** X2. When every call to the store and to the embedding endpoint
    settles, with a result or by throwing an error object, the listing,
    the read by identifier and the creation answer: whatever the request,
    the handler ends with a response, whose status is one of those the
    handler names. *)
Theorem handlers_always_answer (w : World) (body : value) (id : string) :
  (exists r, fst (run (getProducts w)) = Returned r /\
             In (status r) [200; 500]%nat) /\
  (exists r, fst (run (getProductById w id)) = Returned r /\
             In (status r) [200; 400; 404; 500]%nat) /\
  (exists r, fst (run (createProduct w body)) = Returned r /\
             In (status r) [201; 400; 500]%nat).
Proof.
  split; [|split].
  - destruct (run (getProducts w)) as [out tr] eqn:Hrun. unfold_handlers.
    run_cases Hrun; eexists; (split; [reflexivity|cbn; auto]).
  - destruct (run (getProductById w id)) as [out tr] eqn:Hrun. unfold_handlers.
    run_cases Hrun; eexists; (split; [reflexivity|cbn; auto]).
  - destruct (run (createProduct w body)) as [out tr] eqn:Hrun. unfold_handlers.
    run_cases Hrun; eexists; (split; [reflexivity|cbn; auto]).
Qed.

(** X3. Only the creation writes: the listing makes one query and nothing
    else, the read by identifier at most one read, and a search at most
    one embedding call followed by at most one query; none of them ever
    calls [addProduct]. *)
Theorem calls_of_the_readers (w : World) (body : value) (id : string) :
  calls_of (snd (run (getProducts w))) = [CallQuery] /\
  In (calls_of (snd (run (getProductById w id)))) [[]; [CallRead]] /\
  In (calls_of (snd (run (searchProductsByDescriptionVector w body))))
     [[]; [CallEmbed DescriptionVector]; [CallEmbed DescriptionVector; CallQuery]] /\
  In (calls_of (snd (run (searchProductsByTagsVector w body))))
     [[]; [CallEmbed TagsVector]; [CallEmbed TagsVector; CallQuery]] /\
  In (calls_of (snd (run (searchProductsByFeaturesVector w body))))
     [[]; [CallEmbed FeaturesVector]; [CallEmbed FeaturesVector; CallQuery]].
Proof.
  repeat split.
  - destruct (run (getProducts w)) as [out tr] eqn:Hrun. unfold_handlers.
    run_cases Hrun; reflexivity.
  - destruct (run (getProductById w id)) as [out tr] eqn:Hrun. unfold_handlers.
    run_cases Hrun; cbn; auto.
  - destruct (run (searchProductsByDescriptionVector w body)) as [out tr] eqn:Hrun.
    unfold_handlers. run_cases Hrun; cbn; auto.
  - destruct (run (searchProductsByTagsVector w body)) as [out tr] eqn:Hrun.
    unfold_handlers. run_cases Hrun; cbn; auto.
  - destruct (run (searchProductsByFeaturesVector w body)) as [out tr] eqn:Hrun.
    unfold_handlers. run_cases Hrun; cbn; auto.
Qed.

(** X4. A tags or features search whose array holds only strings embeds
    the strings joined with one space, ranks by the vector of its own
    endpoint with the bound [topResults] gives, and answers 200 with the
    store's results as they are; a failed store query is answered 500. *)
Theorem search_by_strings (w : World) (key : string) (f : VectorField)
  (handler : World -> value -> M Response) (o : list (string * value))
  (l : list string) :
  In (key, f, handler) array_searches ->
  lookup key o = VArr (map VStr l) ->
  let input := VStr (String.concat " " l) in
  let reply := axios_post w [] input in
  match vector_of_reply reply with
  | Thrown e => run (handler w (VObj o)) = (Thrown e, [EvEmbed f input reply])
  | Returned v =>
      let spec := mkQuerySpec (SelectTopByDistance f)
                    [("@queryVector", v); ("@top", topResults (lookup "top" o))] in
      let answer := items_query w [EvEmbed f input reply] spec in
      match answer with
      | Returned results =>
          run (handler w (VObj o))
          = (Returned (mkResponse 200 (BodyData (Listing results))),
             [EvEmbed f input reply; EvQuery spec answer])
      | Thrown e =>
          exists label,
            run (handler w (VObj o))
            = (Returned InternalServerError,
               [EvEmbed f input reply; EvQuery spec answer;
                EvLog label (err_message e)])
      end
  end.
Proof.
  intros Hwhich Hl input reply.
  assert (Hparse : tagsSchema (VObj [("tags", VArr (map VStr l))]) = Success (mkTags l)).
  { apply tagsSchema_success. eexists; split; reflexivity. }
  subst input reply. unfold vector_of_reply.
  destruct (run (handler w (VObj o))) as [out tr] eqn:Hrun.
  destruct Hwhich as [Hw|[Hw|[]]]; inversion Hw; subst; clear Hw;
    unfold run, searchProductsByTagsVector, searchProductsByFeaturesVector,
      bind, lift in Hrun;
    cbn [get] in Hrun; rewrite Hl in Hrun;
    change (featuresSchema (VObj [("tags", VArr (map VStr l))]))
      with (tagsSchema (VObj [("tags", VArr (map VStr l))])) in Hrun;
    rewrite Hparse in Hrun; unfold_handlers;
    rewrite topResults_defined in Hrun;
    cbn [tags_of app] in Hrun; unfold join in Hrun;
    (destruct (axios_post w [] (VStr (String.concat " " l))) as [a|e];
     [|inversion Hrun; reflexivity]);
    (destruct (embedding_of a) as [v|e]; [|inversion Hrun; reflexivity]);
    cbn [app] in Hrun; cbn zeta;
    (destruct (items_query w _ _) as [results|e]; inversion Hrun;
     [reflexivity|eexists; reflexivity]).
Qed.

Lemma search_by_strings_witness :
  run (searchProductsByFeaturesVector calm features_search)
  = (Returned (mkResponse 200 (BodyData (Listing (VArr [])))),
     [EvEmbed FeaturesVector (VStr "Voice Remote") (Returned embedding_reply);
      EvQuery (mkQuerySpec (SelectTopByDistance FeaturesVector)
                 [("@queryVector", one_vector); ("@top", five)])
              (Returned (VArr []))]).
Proof.
  apply (search_by_strings calm "queryFeatures" FeaturesVector
           searchProductsByFeaturesVector
           [("queryFeatures", VArr [VStr "Voice"; VStr "Remote"]); ("top", five)]
           ["Voice"; "Remote"]).
  - simpl; auto.
  - reflexivity.
Defined.

(** X5. A read by a well-formed identifier makes one read of the item
    with that identifier in the partition of that identifier, and a
    document the store holds is returned as it is with status 200. *)
Theorem getProductById_found (w : World) (id : string) (d : Product) :
  is_uuid id = true ->
  item_read w [] id id = Returned (RDoc d) ->
  run (getProductById w id)
  = (Returned (mkResponse 200 (BodyData (Document (RDoc d)))),
     [EvRead id id (Returned (RDoc d))]).
Proof.
  intros Hid Hread.
  assert (Hparse : productIDSchema (VObj [("id", VStr id)]) = Success (mkProductID id)).
  { unfold productIDSchema, field, uuid, refine. cbn. now rewrite Hid. }
  unfold run, getProductById. rewrite Hparse.
  unfold try_catch, bind. cbn [pid].
  rewrite getProductById_reply, Hread. reflexivity.
Qed.

Lemma getProductById_found_witness :
  run (getProductById stocked "b56530fc-cbbb-440d-96d0-d047b3579814")
  = (Returned (mkResponse 200 (BodyData (Document (RDoc light_bulb_stored)))),
     [EvRead "b56530fc-cbbb-440d-96d0-d047b3579814"
             "b56530fc-cbbb-440d-96d0-d047b3579814"
             (Returned (RDoc light_bulb_stored))]).
Proof.
  apply (getProductById_found stocked "b56530fc-cbbb-440d-96d0-d047b3579814"
           light_bulb_stored); reflexivity.
Defined.

(* ================================================================= *)
(** ** Further properties of the creation *)

Ltac rewrite_tests :=
  repeat match goal with
         | H : ?b = true |- context [?b] => rewrite H
         | H : ?b = false |- context [?b] => rewrite H
         end.

(** X6. A creation makes its calls in one order: the description
    embedding, the tags embedding, the features embedding (each only if
    its source is not empty), then the store write. The calls of a run
    are a prefix of that plan; the run stops at the first call that fails,
    and then answers 500. *)
Theorem create_calls_in_order (w : World) (body : value) (p : Product)
  (out : outcome Response) (tr : trace) :
  productSchema (new_URL w) body = Success p ->
  run (createProduct w body) = (out, tr) ->
  exists rest,
    planned p = calls_of tr ++ rest /\
    (rest = [] <-> exists doc r, In (EvCreate doc r) tr) /\
    (rest <> [] -> out = Returned InternalServerError).
Proof.
  intros Hparse Hrun.
  unfold run, createProduct in Hrun. rewrite Hparse in Hrun. unfold_handlers.
  run_cases Hrun;
    cbn [description tags features set_id set_descriptionVector set_tagsVector
         set_featuresVector] in *;
    unfold planned, has_source_b; rewrite_tests; cbn [calls_of flat_map app];
    eexists; (split; [reflexivity|]);
    (split; [split; [intros Hr; try discriminate Hr;
                     try (repeat break_match; discriminate Hr);
                     eexists _, _; cbn; eauto 8
                    |intros (doc & r & Hin); pick_event Hin; reflexivity]
            |intros Hr; try reflexivity; now contradiction Hr]).
Qed.

Lemma create_calls_in_order_witness :
  exists rest,
    planned light_bulb_product
    = calls_of (snd (run (createProduct second_call_fails light_bulb))) ++ rest /\
    (rest = [] <->
     exists doc r,
       In (EvCreate doc r) (snd (run (createProduct second_call_fails light_bulb)))) /\
    (rest <> [] ->
     fst (run (createProduct second_call_fails light_bulb))
     = Returned InternalServerError).
Proof.
  apply (create_calls_in_order second_call_fails light_bulb light_bulb_product);
    reflexivity.
Defined.

Lemma productSchema_identifier (new_URL : string -> bool) (body : value)
  (p : Product) (s : string) :
  productSchema new_URL body = Success p ->
  get body "id" = Returned (VStr s) ->
  id p = Some s /\ s <> "".
Proof.
  unfold productSchema.
  destruct body as [ | | | | | |o]; try discriminate.
  intros H Hid. cbn in Hid. inversion Hid as [Hs]; clear Hid.
  repeat match goal with
         | H : _ <*> _ = Success _ |- _ =>
             apply ap_success in H as (? & ? & H & ? & ?)
         end.
  inversion H; subst; clear H. cbn [id].
  match goal with
  | H : field "id" (optional uuid) o = Success _ |- _ =>
      unfold field, optional, uuid, refine, string_ in H; rewrite Hs in H;
      destruct (is_uuid s) eqn:Hu; cbn in H; inversion H; subst
  end.
  split; [reflexivity|]. intros ->. discriminate Hu.
Qed.

(** X7. A creation changes nothing but the identifier and the three
    derived vectors: an identifier the payload brings is the identifier
    written (no UUID is generated over it), and [imageVector] and
    [dimensionsVector] are written as the payload had them. *)
Theorem create_keeps_the_rest (w : World) (body : value) (p : Product)
  (out : outcome Response) (tr : trace) (doc : Product) (r : outcome resource) :
  productSchema (new_URL w) body = Success p ->
  run (createProduct w body) = (out, tr) ->
  In (EvCreate doc r) tr ->
  (forall s, get body "id" = Returned (VStr s) -> id doc = Some s) /\
  imageVector doc = imageVector p /\
  dimensionsVector doc = dimensionsVector p.
Proof.
  intros Hparse Hrun Hin.
  destruct (create_frame w body p out tr doc r Hparse Hrun Hin) as (Hi & Hd & _).
  destruct (create_record w body p out tr doc r Hparse Hrun Hin) as (_ & Hid & _).
  split; [|split; assumption].
  intros s Hs.
  destruct (productSchema_identifier _ _ _ _ Hparse Hs) as [Hp Hne].
  rewrite Hid, Hp. cbn. apply nonempty_true in Hne. now rewrite Hne.
Qed.

Lemma create_keeps_the_rest_witness :
  let p := parsed_or starts_with_https labelled_product light_bulb_product in
  let doc := written_or (snd (run (createProduct calm labelled_product)))
               light_bulb_product in
  (forall s, get labelled_product "id" = Returned (VStr s) -> id doc = Some s) /\
  imageVector doc = imageVector p /\
  dimensionsVector doc = dimensionsVector p.
Proof.
  intros p doc.
  apply (create_keeps_the_rest calm labelled_product p
           (fst (run (createProduct calm labelled_product)))
           (snd (run (createProduct calm labelled_product)))
           doc (Returned (RDoc doc))).
  - reflexivity.
  - reflexivity.
  - simpl; auto.
Defined.

(** X8. When the store refuses the write (a conflict on the identifier,
    an outage), the creation answers the generic 500 and logs the store's
    message; the write was attempted once, after every embedding call had
    succeeded, and nothing follows it: no second attempt, no call that
    would undo the embeddings. *)
Theorem create_store_failure (w : World) (body : value)
  (out : outcome Response) (tr : trace) (doc : Product) (e : Error) :
  run (createProduct w body) = (out, tr) ->
  In (EvCreate doc (Thrown e)) tr ->
  out = Returned InternalServerError /\
  exists pre,
    tr = pre ++ [EvCreate doc (Thrown e);
                 EvLog "Error creating product:" (err_message e)] /\
    forall ev, In ev pre -> exists f i a, ev = EvEmbed f i (Returned a).
Proof.
  intros Hrun Hin.
  destruct (productSchema (new_URL w) body) as [p|issues] eqn:Hparse.
  - destruct (create_frame w body p out tr doc (Thrown e) Hparse Hrun Hin)
      as (_ & _ & pre & post & -> & Hpre & -> & ->).
    split; [reflexivity|]. exists pre. split; [reflexivity|exact Hpre].
  - unfold run, createProduct in Hrun. rewrite Hparse in Hrun.
    inversion Hrun; subst. destruct Hin.
Qed.

Lemma create_store_failure_witness :
  fst (run (createProduct store_down light_bulb)) = Returned InternalServerError /\
  exists pre,
    snd (run (createProduct store_down light_bulb))
    = pre ++ [EvCreate light_bulb_stored (Thrown network_error);
              EvLog "Error creating product:" (err_message network_error)] /\
    forall ev, In ev pre -> exists f i a, ev = EvEmbed f i (Returned a).
Proof.
  apply (create_store_failure store_down light_bulb).
  - reflexivity.
  - simpl; auto.
Defined.

(* ================================================================= *)
(** ** Further properties of validation *)

Lemma honest_ap {A B} (rf : SafeParse (A -> B)) (ra : SafeParse A) :
  honest rf -> honest ra -> honest (rf <*> ra).
Proof.
  unfold honest. rewrite issues_of_ap.
  intros Hf Ha Hnil. apply app_eq_nil in Hnil as [Hf0 Ha0].
  specialize (Hf Hf0); specialize (Ha Ha0).
  destruct rf, ra; try discriminate; reflexivity.
Qed.

Lemma honest_at_path {A} (seg : segment) (r : SafeParse A) :
  honest r -> honest (at_path seg r).
Proof.
  unfold honest. destruct r as [a|l]; cbn; [auto|].
  intros H Hnil. apply map_eq_nil in Hnil. auto.
Qed.

Lemma honest_string (v : value) : honest (string_ v).
Proof. unfold honest. destruct v; cbn; congruence. Qed.

Lemma honest_number (v : value) : honest (number_ v).
Proof. unfold honest. destruct v as [ | | |[ | | | ]| | | ]; cbn; congruence. Qed.

Lemma honest_refine (ok : string -> bool) (msg : string) (v : value) :
  honest (refine string_ ok msg v).
Proof.
  unfold honest, refine. destruct v; cbn; try congruence.
  destruct (ok s); cbn; congruence.
Qed.

Lemma honest_elements {A} (s : schema A) (i : nat) (l : list value) :
  (forall v, honest (s v)) -> honest (elements s i l).
Proof.
  intros Hs. revert i; induction l as [|v l IH]; intros i; cbn [elements].
  - unfold honest; reflexivity.
  - apply honest_ap; [apply honest_ap|apply IH].
    + unfold honest; reflexivity.
    + apply honest_at_path, Hs.
Qed.

Lemma honest_array {A} (s : schema A) (v : value) :
  (forall v, honest (s v)) -> honest (array s v).
Proof.
  intros Hs. unfold array.
  destruct v; try (unfold honest; cbn; congruence).
  now apply honest_elements.
Qed.

Lemma honest_optional {A} (s : schema A) (v : value) :
  honest (s v) -> honest (optional s v).
Proof.
  intros Hs. unfold optional.
  destruct v; try (unfold honest; reflexivity);
    (apply honest_ap; [unfold honest; reflexivity|exact Hs]).
Qed.

Lemma honest_field {A} (k : string) (s : schema A) (o : list (string * value)) :
  (forall v, honest (s v)) -> honest (field k s o).
Proof.
  intros Hs. apply honest_at_path, Hs.
Qed.

Lemma honest_dimensions (v : value) : honest (dimensionsSchema v).
Proof.
  unfold dimensionsSchema.
  destruct v; try (unfold honest; cbn; congruence).
  repeat apply honest_ap; try (apply honest_field, honest_string).
  unfold honest; reflexivity.
Qed.

Lemma honest_vector (v : value) : honest (vector_ v).
Proof.
  unfold vector_. apply honest_ap; [unfold honest; reflexivity|].
  apply honest_optional, honest_array, honest_number.
Qed.

(** [productSchema] never fails without saying why. *)
Lemma honest_productSchema (new_URL : string -> bool) (body : value) :
  honest (productSchema new_URL body).
Proof.
  unfold productSchema.
  destruct body; try (unfold honest; cbn; congruence).
  repeat apply honest_ap;
    try (apply honest_field; intros v;
         first [apply honest_string | apply honest_number | apply honest_refine
               | apply honest_vector
               | apply honest_array, honest_string
               | apply honest_optional, honest_dimensions
               | apply honest_optional, honest_refine]).
  unfold honest; reflexivity.
Qed.

(** X9. A creation is turned down exactly when some key of the schema is
    violated: then the answer is 400 with a list of errors that is not
    empty and no call is made; otherwise the handler goes on and answers
    201 or 500. *)
Theorem create_rejected_iff_violated (w : World) (o : list (string * value)) :
  (violations (product_shape (new_URL w)) o <> [] ->
   exists errors,
     errors <> [] /\
     run (createProduct w (VObj o))
     = (Returned (mkResponse 400 (BodyErrors errors)), [])) /\
  (violations (product_shape (new_URL w)) o = [] ->
   exists r, fst (run (createProduct w (VObj o))) = Returned r /\
             In (status r) [201; 500]%nat).
Proof.
  rewrite <- productSchema_issues.
  pose proof (honest_productSchema (new_URL w) (VObj o)) as Hhonest.
  split; intros Hv.
  - destruct (productSchema (new_URL w) (VObj o)) as [p|issues] eqn:Hparse;
      [now contradiction Hv|].
    exists (map format_issue issues). split.
    + cbn in Hv. destruct issues; [now contradiction Hv|discriminate].
    + unfold run, createProduct. rewrite Hparse. reflexivity.
  - specialize (Hhonest Hv).
    destruct (productSchema (new_URL w) (VObj o)) as [p|issues] eqn:Hparse;
      [|discriminate].
    destruct (run (createProduct w (VObj o))) as [out tr] eqn:Hrun.
    unfold run, createProduct in Hrun. rewrite Hparse in Hrun. unfold_handlers.
    run_cases Hrun; eexists; (split; [reflexivity|cbn; auto]).
Qed.

(** X10. Every required key that a create payload lacks is reported: the
    answer is 400 and its list has the entry of that key, with the key as
    path and the message [Required]. *)
Theorem create_reports_missing_keys (w : World) (o : list (string * value))
  (k : string) :
  In k required_keys ->
  lookup k o = VUndefined ->
  exists errors,
    run (createProduct w (VObj o))
    = (Returned (mkResponse 400 (BodyErrors errors)), []) /\
    In (k, "Required") errors.
Proof.
  intros Hk Hmissing.
  assert (Hchk : exists chk, In (k, chk) (product_shape (new_URL w)) /\
                             chk VUndefined = [mkIssue [] "Required"]).
  { cbn in Hk.
    repeat (destruct Hk as [<-|Hk];
            [eexists; split; [cbn; eauto 30|reflexivity]|]).
    contradiction. }
  destruct Hchk as (chk & Hin & Hreq).
  assert (Hissue : In (under (Key k) (mkIssue [] "Required"))
                      (issues_of (productSchema (new_URL w) (VObj o)))).
  { rewrite productSchema_issues. unfold violations.
    apply in_flat_map. exists (k, chk). split; [exact Hin|].
    cbn [fst snd]. rewrite Hmissing, Hreq. left; reflexivity. }
  destruct (productSchema (new_URL w) (VObj o)) as [p|issues] eqn:Hparse;
    [destruct Hissue|].
  exists (map format_issue issues). split.
  - unfold run, createProduct. rewrite Hparse. reflexivity.
  - cbn in Hissue. apply (in_map format_issue) in Hissue.
    destruct (dotted_under k (mkIssue [] "Required")) as [Hfmt _].
    rewrite Hfmt in Hissue. cbn in Hissue.
    replace (String.concat "." [k]) with k in Hissue by reflexivity.
    exact Hissue.
Qed.

Lemma create_reports_missing_keys_witness :
  exists errors,
    run (createProduct calm faulty_product)
    = (Returned (mkResponse 400 (BodyErrors errors)), []) /\
    In ("brand", "Required") errors.
Proof.
  apply (create_reports_missing_keys calm
           [("name", VNum NaN); ("tags", VArr [VStr "a"; VNull]);
            ("dimensions", VObj [])] "brand").
  - simpl; auto.
  - reflexivity.
Defined.

Lemma elements_issue (l : list value) (i j : nat) (v : value) :
  nth_error l i = Some v ->
  (forall s, v <> VStr s) ->
  In (mkIssue [Index (j + i)] (message (invalid_type "string" v)))
     (issues_of (elements string_ j l)).
Proof.
  revert i j; induction l as [|v0 l IH]; intros i j Hnth Hbad.
  - destruct i; discriminate.
  - cbn [elements]. rewrite !issues_of_ap. cbn [issues_of app].
    apply in_or_app. destruct i as [|i]; cbn in Hnth.
    + left. inversion Hnth; subst v0. rewrite Nat.add_0_r.
      destruct v; cbn; auto. now contradiction (Hbad s).
    + right. replace (j + S i)%nat with (S j + i)%nat by lia. now apply IH.
Qed.

(** X11. Every element of [tags] that is not a string is reported at its
    own index: the answer to the creation is 400 and its list has an
    entry with path [tags.i] for each such index [i]. *)
Theorem create_reports_each_bad_tag (w : World) (o : list (string * value))
  (l : list value) (i : nat) (v : value) :
  lookup "tags" o = VArr l ->
  nth_error l i = Some v ->
  (forall s, v <> VStr s) ->
  exists errors,
    run (createProduct w (VObj o))
    = (Returned (mkResponse 400 (BodyErrors errors)), []) /\
    In (("tags." ++ index_to_string i)%string,
        message (invalid_type "string" v)) errors.
Proof.
  intros Htags Hnth Hbad.
  assert (Hissue : In (mkIssue [Key "tags"; Index i]
                         (message (invalid_type "string" v)))
                      (issues_of (productSchema (new_URL w) (VObj o)))).
  { rewrite productSchema_issues. unfold violations.
    apply in_flat_map. exists ("tags", check (array string_)).
    split; [cbn; eauto 20|].
    cbn [fst snd]. rewrite Htags. unfold check, array.
    pose proof (elements_issue l i 0 v Hnth Hbad) as Hin.
    apply (in_map (under (Key "tags"))) in Hin. exact Hin. }
  destruct (productSchema (new_URL w) (VObj o)) as [p|issues] eqn:Hparse;
    [destruct Hissue|].
  exists (map format_issue issues). split.
  - unfold run, createProduct. rewrite Hparse. reflexivity.
  - cbn in Hissue. apply (in_map format_issue) in Hissue. exact Hissue.
Qed.

Lemma create_reports_each_bad_tag_witness :
  exists errors,
    run (createProduct calm faulty_product)
    = (Returned (mkResponse 400 (BodyErrors errors)), []) /\
    In ("tags.1", "Expected string, received null") errors.
Proof.
  apply (create_reports_each_bad_tag calm
           [("name", VNum NaN); ("tags", VArr [VStr "a"; VNull]);
            ("dimensions", VObj [])] [VStr "a"; VNull] 1 VNull).
  - reflexivity.
  - reflexivity.
  - intros s; discriminate.
Defined.

(* ================================================================= *)
(** ** Further properties of the store connection *)

Lemma coherent_instance : coherent CosmosDB.instance.
Proof.
  split; [apply settled_instance|]. cbn. split; [|reflexivity].
  split; discriminate.
Qed.

(** One step of the event loop moves the run along its life cycle, by the
    action that causes the move, or leaves it where it is. *)
Lemma step_phase (a : CosmosDB.action) (s : CosmosDB.t) :
  coherent s ->
  coherent (fst (CosmosDB.step a s)) /\
  (phase_of (fst (CosmosDB.step a s)) = phase_of s \/
   (a = CosmosDB.CallInitialize /\ phase_of s = None /\
    phase_of (fst (CosmosDB.step a s)) = Some CosmosDB.AwaitingDatabase) \/
   (a = CosmosDB.DatabaseReplies 0 true /\
    phase_of s = Some CosmosDB.AwaitingDatabase /\
    phase_of (fst (CosmosDB.step a s)) = Some CosmosDB.AwaitingContainer) \/
   (a = CosmosDB.DatabaseReplies 0 false /\
    phase_of s = Some CosmosDB.AwaitingDatabase /\
    phase_of (fst (CosmosDB.step a s)) = Some CosmosDB.Rejected) \/
   (a = CosmosDB.ContainerReplies 0 true /\
    phase_of s = Some CosmosDB.AwaitingContainer /\
    phase_of (fst (CosmosDB.step a s)) = Some CosmosDB.Fulfilled) \/
   (a = CosmosDB.ContainerReplies 0 false /\
    phase_of s = Some CosmosDB.AwaitingContainer /\
    phase_of (fst (CosmosDB.step a s)) = Some CosmosDB.Rejected)).
Proof.
  intros (Hs & Hflag & Hbox).
  split.
  { split; [now apply settled_step|].
    destruct Hs as [(Hi & Hr & Hd & _)|(ph & Hi & Hr & Hd & _)];
      destruct s as [done pending box rs dbs cs]; unfold phase_of in *;
      cbn in *; subst.
    - destruct a as [|i ok|i ok]; cbn;
        try (unfold CosmosDB.database_reply, CosmosDB.container_reply; cbn;
             destruct i; cbn);
        (split; [split; discriminate|reflexivity]).
    - destruct a as [|i ok|i ok]; cbn.
      + unfold CosmosDB.initialize; cbn. destruct done; cbn; auto.
      + unfold CosmosDB.database_reply; cbn.
        destruct i as [|i]; cbn; [|destruct i; cbn; auto].
        destruct ph; cbn; auto.
        destruct ok; cbn; (split; [|reflexivity]);
          (split; [intros Hdone; apply Hflag in Hdone|]; discriminate).
      + unfold CosmosDB.container_reply; cbn.
        destruct i as [|i]; cbn; [|destruct i; cbn; auto].
        destruct ph; cbn; auto.
        destruct ok; cbn; (split; [|reflexivity]).
        * split; reflexivity.
        * split; [intros Hdone; apply Hflag in Hdone|]; discriminate. }
  destruct Hs as [(Hi & Hr & Hd & _)|(ph & Hi & Hr & Hd & _)];
    destruct s as [done pending box rs dbs cs]; unfold phase_of in *;
    cbn in *; subst.
  - destruct a as [|i ok|i ok]; cbn.
    + right; left; auto.
    + left. unfold CosmosDB.database_reply; cbn. destruct i; reflexivity.
    + left. unfold CosmosDB.container_reply; cbn. destruct i; reflexivity.
  - destruct a as [|i ok|i ok]; cbn.
    + left. unfold CosmosDB.initialize; cbn. destruct done; reflexivity.
    + unfold CosmosDB.database_reply; cbn.
      destruct i as [|i]; cbn; [|left; destruct i; reflexivity].
      destruct ph; cbn; auto.
      destruct ok; cbn; [right; right; left|right; right; right; left]; auto.
    + unfold CosmosDB.container_reply; cbn.
      destruct i as [|i]; cbn; [|left; destruct i; reflexivity].
      destruct ph; cbn; auto.
      destruct ok; cbn; [do 4 right; left|do 5 right]; auto.
Qed.

Lemma coherent_exec (schedule : list CosmosDB.action) (s : CosmosDB.t) :
  coherent s -> coherent (fst (CosmosDB.exec schedule s)).
Proof.
  revert s; induction schedule as [|a rest IH]; intros s Hs; [exact Hs|].
  rewrite exec_cons; cbn [fst]. apply IH. now apply step_phase.
Qed.

(** How a state was reached: a fulfilled run saw both creations succeed,
    a rejected run saw one of them fail. *)
Lemma exec_history (schedule : list CosmosDB.action) (s : CosmosDB.t) :
  coherent s ->
  let s' := fst (CosmosDB.exec schedule s) in
  (phase_of s' = Some CosmosDB.Fulfilled ->
   (phase_of s = Some CosmosDB.Fulfilled \/
    In (CosmosDB.ContainerReplies 0 true) schedule) /\
   (phase_of s = Some CosmosDB.Fulfilled \/
    phase_of s = Some CosmosDB.AwaitingContainer \/
    In (CosmosDB.DatabaseReplies 0 true) schedule)) /\
  (phase_of s' = Some CosmosDB.AwaitingContainer ->
   phase_of s = Some CosmosDB.AwaitingContainer \/
   In (CosmosDB.DatabaseReplies 0 true) schedule) /\
  (phase_of s' = Some CosmosDB.Rejected ->
   phase_of s = Some CosmosDB.Rejected \/
   In (CosmosDB.DatabaseReplies 0 false) schedule \/
   In (CosmosDB.ContainerReplies 0 false) schedule).
Proof.
  revert s; induction schedule as [|a rest IH]; intros s Hs; cbn zeta.
  - cbn. repeat split; auto.
  - rewrite exec_cons; cbn [fst].
    destruct (step_phase a s Hs) as [Hs1 Hmove].
    specialize (IH _ Hs1). cbn zeta in IH.
    destruct IH as (Hful & Hcont & Hrej).
    split; [|split].
    + intros H. destruct (Hful H) as [Hlast Hfirst]. split.
      * destruct Hlast as [H1|H1]; [|right; right; exact H1].
        destruct Hmove as [Heq|[(-> & _ & Hn)|[(-> & _ & Hn)|[(-> & _ & Hn)
                           |[(-> & _ & Hn)|(-> & _ & Hn)]]]]];
          try congruence; [left; congruence|right; left; reflexivity].
      * destruct Hfirst as [H2|[H2|H2]]; [| |do 2 right; right; exact H2].
        -- destruct Hmove as [Heq|[(-> & _ & Hn)|[(-> & _ & Hn)|[(-> & _ & Hn)
                             |[(-> & Ho & Hn)|(-> & _ & Hn)]]]]];
             try congruence; [left; congruence|right; left; exact Ho].
        -- destruct Hmove as [Heq|[(-> & _ & Hn)|[(-> & _ & Hn)|[(-> & _ & Hn)
                             |[(-> & _ & Hn)|(-> & _ & Hn)]]]]];
             try congruence;
             [right; left; congruence|do 2 right; left; reflexivity].
    + intros H. destruct (Hcont H) as [H1|H1]; [|right; right; exact H1].
      destruct Hmove as [Heq|[(-> & _ & Hn)|[(-> & _ & Hn)|[(-> & _ & Hn)
                         |[(-> & _ & Hn)|(-> & _ & Hn)]]]]];
        try congruence; [left; congruence|right; left; reflexivity].
    + intros H. destruct (Hrej H) as [H1|[H1|H1]];
        [|right; left; right; exact H1|right; right; right; exact H1].
      destruct Hmove as [Heq|[(-> & _ & Hn)|[(-> & _ & Hn)|[(-> & _ & Hn)
                         |[(-> & _ & Hn)|(-> & _ & Hn)]]]]];
        try congruence;
        [left; congruence|right; left; left; reflexivity
        |right; right; left; reflexivity].
Qed.

(** X12. The container getter fails fast: in every state the singleton
    can reach, [getProductsContainer] returns the container when the run
    of [init()] is fulfilled, which takes a successful reply to both
    creation calls, and throws the not-initialized error in every other
    state: before any call, while a creation is pending, and after a
    failure. *)
Theorem getProductsContainer_fails_fast (schedule : list CosmosDB.action) :
  let s := fst (CosmosDB.exec schedule CosmosDB.instance) in
  (phase_of s = Some CosmosDB.Fulfilled ->
   CosmosDB.getProductsContainer s = Returned true /\
   In (CosmosDB.DatabaseReplies 0 true) schedule /\
   In (CosmosDB.ContainerReplies 0 true) schedule) /\
  (phase_of s <> Some CosmosDB.Fulfilled ->
   CosmosDB.getProductsContainer s = Thrown not_initialized).
Proof.
  intros s.
  assert (Hs : coherent s) by apply coherent_exec, coherent_instance.
  destruct Hs as (_ & Hflag & Hbox).
  unfold CosmosDB.getProductsContainer. split; intros Hph.
  - rewrite Hbox. apply Hflag in Hph as Hdone. rewrite Hdone. cbn.
    split; [reflexivity|].
    destruct (exec_history schedule CosmosDB.instance coherent_instance)
      as (Hful & _ & _).
    destruct (Hful Hph) as [[H1|H1] [H2|[H2|H2]]]; try discriminate; auto.
  - destruct (CosmosDB.initialized s) eqn:Hdone; [|reflexivity].
    exfalso. apply Hph, Hflag. reflexivity.
Qed.

Lemma settled_state_frozen (a : CosmosDB.action) (s : CosmosDB.t) :
  coherent s ->
  (phase_of s = Some CosmosDB.Fulfilled ->
   CosmosDB.step a s
   = (s, match a with CosmosDB.CallInitialize => [CosmosDB.Resolved] | _ => [] end)) /\
  (phase_of s = Some CosmosDB.Rejected ->
   CosmosDB.step a s
   = (s, match a with CosmosDB.CallInitialize => [CosmosDB.Adopts 0] | _ => [] end)).
Proof.
  intros (Hs & Hflag & Hbox).
  destruct Hs as [(Hi & Hr & Hd & _)|(ph & Hi & Hr & Hd & _)];
    destruct s as [done pending box rs dbs cs]; unfold phase_of in *;
    cbn in *; subst; (split; intros Hph; [|]); try discriminate;
    inversion Hph; subst.
  - assert (done = true) as -> by (now apply Hflag).
    destruct a as [|i ok|i ok]; cbn; try reflexivity;
      unfold CosmosDB.database_reply, CosmosDB.container_reply; cbn;
      destruct i as [|[|i]]; reflexivity.
  - assert (done = false) as ->.
    { destruct done; [|reflexivity].
      destruct Hflag as [Hf _]. specialize (Hf eq_refl). discriminate. }
    destruct a as [|i ok|i ok]; cbn; try reflexivity;
      unfold CosmosDB.database_reply, CosmosDB.container_reply; cbn;
      destruct i as [|[|i]]; reflexivity.
Qed.

(** X13. Once the run of [init()] has settled, nothing changes any more.
    After a failure, every later [initialize()] call gets the promise of
    the failed run back and no creation call is issued again: a failed
    initialization is never retried, and the container getter keeps
    throwing. After a success, every later call returns at once. *)
Theorem settled_run_is_final (before after : list CosmosDB.action) :
  let s := fst (CosmosDB.exec before CosmosDB.instance) in
  (phase_of s = Some CosmosDB.Rejected ->
   CosmosDB.exec after s
   = (s, repeat (CosmosDB.Adopts 0) (calls_to_initialize after)) /\
   CosmosDB.getProductsContainer s = Thrown not_initialized) /\
  (phase_of s = Some CosmosDB.Fulfilled ->
   CosmosDB.exec after s
   = (s, repeat CosmosDB.Resolved (calls_to_initialize after))).
Proof.
  intros s.
  assert (Hs : coherent s) by apply coherent_exec, coherent_instance.
  split; intros Hph.
  - split.
    + induction after as [|a rest IH]; [reflexivity|].
      rewrite exec_cons.
      destruct (settled_state_frozen a s Hs) as [_ Hstep].
      rewrite (Hstep Hph). cbn [fst snd]. rewrite IH.
      destruct a; reflexivity.
    + destruct Hs as (_ & Hflag & _).
      unfold CosmosDB.getProductsContainer.
      destruct (CosmosDB.initialized s) eqn:Hdone; [|reflexivity].
      destruct Hflag as [Hf _]. specialize (Hf eq_refl). congruence.
  - induction after as [|a rest IH]; [reflexivity|].
    rewrite exec_cons.
    destruct (settled_state_frozen a s Hs) as [Hstep _].
    rewrite (Hstep Hph). cbn [fst snd]. rewrite IH.
    destruct a; reflexivity.
Qed.


(* ================================================================= *)
(** ** Properties of the configuration and of the container *)

Lemma lookup_process_env (k : string) (vars : list (string * string)) :
  lookup k (map (fun kv => (fst kv, VStr (snd kv))) vars)
  = match getenv k vars with
    | Some s => VStr s
    | None => VUndefined
    end.
Proof.
  induction vars as [|[k' v] vars IH]; cbn; [reflexivity|].
  destruct (String.eqb k k'); [reflexivity|exact IH].
Qed.

(** X15. The configuration loads exactly when the five required
    variables are set and [PORT], if set, converts to a number. It then
    holds the variables as they are, and the port is the converted [PORT],
    or 8000 when [PORT] is not set. Otherwise loading fails, and every
    required variable that is not set is reported under its own name with
    the message [<name> is required]. *)
Theorem config_loads_or_reports (Number_ : value -> number)
  (vars : list (string * string)) :
  keeps_numbers Number_ ->
  match Env.config Number_ vars with
  | Success c =>
      getenv "AZURE_COSMOS_DB_ENDPOINT" vars = Some (Env.endpoint (Env.cosmos c)) /\
      getenv "AZURE_COSMOS_DB_KEY" vars = Some (Env.key (Env.cosmos c)) /\
      getenv "AZURE_COSMOS_DB" vars = Some (Env.database (Env.cosmos c)) /\
      getenv "AZURE_OPENAI_API_KEY" vars = Some (Env.apiKey (Env.azureOpenAi c)) /\
      getenv "AZURE_OPENAI_TEXT_EMBEDDING_MODEL_ENDPOINT" vars
      = Some (Env.embedding_endPoint (Env.azureOpenAi c)) /\
      Env.port c = match getenv "PORT" vars with
                   | Some s => Number_ (VStr s)
                   | None => Finite (8000 # 1)
                   end /\
      Env.port c <> NaN
  | Failure issues =>
      (forall k, In k required_variables -> getenv k vars = None ->
                 In (mkIssue [Key k] (k ++ " is required")) issues) /\
      ((exists k, In k required_variables /\ getenv k vars = None) \/
       (exists s, getenv "PORT" vars = Some s /\ Number_ (VStr s) = NaN))
  end.
Proof.
  intros Hnum.
  unfold Env.config, Env.EnvSchema, Env.process_env, field.
  rewrite !lookup_process_env.
  unfold Env.default, Env.coerce_number, Env.string_with, Env.eight_thousand.
  rewrite Hnum.
  destruct (getenv "PORT" vars) as [port|];
    [destruct (Number_ (VStr port)) eqn:Hport|];
    destruct (getenv "AZURE_COSMOS_DB_ENDPOINT" vars) as [e|] eqn:H1;
    destruct (getenv "AZURE_COSMOS_DB_KEY" vars) as [k1|] eqn:H2;
    destruct (getenv "AZURE_COSMOS_DB" vars) as [d|] eqn:H3;
    destruct (getenv "AZURE_OPENAI_API_KEY" vars) as [a|] eqn:H4;
    destruct (getenv "AZURE_OPENAI_TEXT_EMBEDDING_MODEL_ENDPOINT" vars) as [m|] eqn:H5;
    cbn;
    try (repeat split; auto; discriminate);
    (split;
     [intros k Hk Hnone; cbn in Hk;
      repeat (destruct Hk as [<-|Hk]; [try congruence; cbn; tauto|]);
      contradiction
     |first [right; eexists; split; [reflexivity|assumption]
            |left; eexists; split; [|eassumption]; cbn; tauto]]).
Qed.

Lemma config_loads_or_reports_witness :
  match Env.config sample_Number full_environment with
  | Success c =>
      getenv "AZURE_COSMOS_DB_ENDPOINT" full_environment
      = Some (Env.endpoint (Env.cosmos c)) /\
      getenv "AZURE_COSMOS_DB_KEY" full_environment = Some (Env.key (Env.cosmos c)) /\
      getenv "AZURE_COSMOS_DB" full_environment = Some (Env.database (Env.cosmos c)) /\
      getenv "AZURE_OPENAI_API_KEY" full_environment
      = Some (Env.apiKey (Env.azureOpenAi c)) /\
      getenv "AZURE_OPENAI_TEXT_EMBEDDING_MODEL_ENDPOINT" full_environment
      = Some (Env.embedding_endPoint (Env.azureOpenAi c)) /\
      Env.port c = match getenv "PORT" full_environment with
                   | Some s => sample_Number (VStr s)
                   | None => Finite (8000 # 1)
                   end /\
      Env.port c <> NaN
  | Failure issues =>
      (forall k, In k required_variables -> getenv k full_environment = None ->
                 In (mkIssue [Key k] (k ++ " is required")) issues) /\
      ((exists k, In k required_variables /\ getenv k full_environment = None) \/
       (exists s, getenv "PORT" full_environment = Some s /\
                  sample_Number (VStr s) = NaN))
  end.
Proof.
  apply (config_loads_or_reports sample_Number full_environment).
  intros n; reflexivity.
Defined.

(** X16. The container is created with what the searches rely on: each
    of the three vectors a search ranks by has an embedding declared on
    its path (10 dimensions of [Float32], cosine distance) and a vector
    index on the same path; every vector index has an embedding declared
    on its path, every declared vector is kept out of the regular index,
    and the partition key is the identifier. *)
Theorem searched_vectors_are_indexed :
  (forall f : VectorField,
     In (Container.mkEmbedding (vector_path f) Container.Float32 10 Container.Cosine)
        Container.vectorEmbeddingPolicy /\
     In (Container.mkIndex (vector_path f) Container.DiskANN)
        (Container.vectorIndexes Container.indexingPolicy)) /\
  (forall i, In i (Container.vectorIndexes Container.indexingPolicy) ->
     exists e, In e Container.vectorEmbeddingPolicy /\
               Container.embedding_path e = Container.index_path i) /\
  (forall e, In e Container.vectorEmbeddingPolicy ->
     In (Container.embedding_path e ++ "/*")%string
        (Container.excludedPaths Container.indexingPolicy)) /\
  Container.partitionKey = ["/id"].
Proof.
  split; [|split; [|split]].
  - intros f; destruct f; cbn; tauto.
  - intros i Hi; cbn in Hi.
    repeat (destruct Hi as [<-|Hi];
            [eexists;
             first [solve [split; [cbn; left; reflexivity|reflexivity]]
                   |solve [split; [cbn; right; left; reflexivity|reflexivity]]
                   |solve [split; [cbn; do 2 right; left; reflexivity|reflexivity]]
                   |solve [split; [cbn; do 3 right; left; reflexivity|reflexivity]]
                   |solve [split; [cbn; do 4 right; left; reflexivity|reflexivity]]]
            |]).
    contradiction.
  - intros e He; cbn in He.
    repeat (destruct He as [<-|He]; [cbn; tauto|]).
    contradiction.
  - reflexivity.
Qed.

(* ================================================================= *)
(** ** Validation twice *)

Lemma field_number_again (k : string) (o : list (string * value)) (n : number) :
  field k number_ o = Success n -> number_ (VNum n) = Success n.
Proof.
  intros H. pose proof (field_number k o n H) as Hk.
  unfold field in H. rewrite Hk in H. now apply at_path_success in H.
Qed.

Lemma elements_numbers (l0 : list value) (i j : nat) (l : list number) :
  elements number_ i l0 = Success l ->
  elements number_ j (map VNum l) = Success l.
Proof.
  revert i j l; induction l0 as [|v l0 IH]; intros i j l H; cbn [elements] in H.
  - inversion H; reflexivity.
  - apply ap_success in H as (f & rest & Hf & Hrest & ->).
    apply ap_success in Hf as (g & n & Hg & Hn & ->).
    inversion Hg; subst g.
    apply at_path_success in Hn.
    assert (Hagain : number_ (VNum n) = Success n).
    { destruct v as [ | | |[ | | | ]| | | ]; cbn in Hn; inversion Hn; reflexivity. }
    cbn [map elements]. rewrite Hagain, (IH _ (S j) _ Hrest). reflexivity.
Qed.

Lemma field_vector_again (k : string) (o : list (string * value)) (x : value) :
  field k vector_ o = Success x -> vector_ x = Success x.
Proof.
  unfold field. intros H. apply at_path_success in H. unfold vector_ in *.
  apply ap_success in H as (f & ol & Hf & Hol & ->).
  inversion Hf; subst f.
  unfold optional in Hol.
  destruct (lookup k o) as [ | | | | |l0| ];
    try (apply ap_success in Hol as (g & l & Hg & Hl & ->);
         inversion Hg; subst g; cbn in Hl; discriminate).
  - inversion Hol; reflexivity.
  - apply ap_success in Hol as (g & l & Hg & Hl & ->).
    inversion Hg; subst g. cbn [array] in Hl.
    cbn [vector_value optional array].
    now rewrite (elements_numbers l0 0 0 l Hl).
Qed.

(** What a successful parse says of the parsed product itself. *)
Lemma productSchema_parsed (new_URL : string -> bool) (body : value) (p : Product) :
  productSchema new_URL body = Success p ->
  (forall s, id p = Some s -> is_uuid s = true) /\
  new_URL (imageUrl p) = true /\
  number_ (VNum (price p)) = Success (price p) /\
  number_ (VNum (stock p)) = Success (stock p) /\
  number_ (VNum (rating p)) = Success (rating p) /\
  number_ (VNum (reviewsCount p)) = Success (reviewsCount p) /\
  vector_ (descriptionVector p) = Success (descriptionVector p) /\
  vector_ (imageVector p) = Success (imageVector p) /\
  vector_ (tagsVector p) = Success (tagsVector p) /\
  vector_ (featuresVector p) = Success (featuresVector p) /\
  vector_ (dimensionsVector p) = Success (dimensionsVector p).
Proof.
  unfold productSchema.
  destruct body as [ | | | | | |o]; try discriminate.
  intros H.
  repeat match goal with
         | H : _ <*> _ = Success _ |- _ =>
             apply ap_success in H as (? & ? & H & ? & ?)
         end.
  inversion H; subst; clear H. cbn.
  repeat match goal with
         | H : field _ number_ _ = Success _ |- _ => apply field_number_again in H
         | H : field _ vector_ _ = Success _ |- _ => apply field_vector_again in H
         | H : field _ (refine string_ _ _) _ = Success _ |- _ =>
             apply field_refined in H as [_ H]
         | H : field "id" (optional uuid) _ = Success _ |- _ =>
             apply field_identifier in H as [_ H]
         end.
  repeat split; try assumption.
  intros s Hs.
  match goal with
  | Hsome : forall s, _ = Some s -> _ |- _ => now destruct (Hsome s Hs)
  end.
Qed.

(** X17. Validation is idempotent: the product [productSchema] returns,
    seen again as a payload, passes [productSchema] and comes back
    unchanged; what was accepted once holds no key the schema would
    refuse or alter. *)
Theorem productSchema_idempotent (new_URL : string -> bool) (body : value)
  (p : Product) :
  productSchema new_URL body = Success p ->
  productSchema new_URL (to_value p) = Success p.
Proof.
  intros H.
  destruct (productSchema_parsed new_URL body p H)
    as (Hid & Hurl & Hprice & Hstock & Hrating & Hreviews
        & Hdv & Hiv & Htv & Hfv & Hxv).
  destruct p as [i n b sk c pr cu st de fe ra rc tg im ma mo rd wa di co mt og
                 dv iv tv fv xv].
  cbn [id imageUrl price stock rating reviewsCount descriptionVector imageVector
       tagsVector featuresVector dimensionsVector] in *.
  unfold productSchema, to_value, non_vector_fields, field.
  cbn [name brand sku category price currency stock description features rating
       reviewsCount tags imageUrl manufacturer model releaseDate warranty
       dimensions color material origin id descriptionVector imageVector
       tagsVector featuresVector dimensionsVector
       app lookup String.eqb Ascii.eqb Bool.eqb].
  rewrite Hprice, Hstock, Hrating, Hreviews, Hdv, Hiv, Htv, Hfv, Hxv.
  unfold refine, array. cbn [string_]. rewrite Hurl, strings_elements.
  assert (Hi : optional uuid (match i with Some s => VStr s | None => VUndefined end)
               = Success i).
  { destruct i as [s|]; [|reflexivity].
    unfold optional, uuid, refine. cbn [string_]. now rewrite (Hid s eq_refl). }
  rewrite Hi.
  assert (Hd : optional dimensionsSchema (dimensions_value di) = Success di).
  { destruct di as [[w1 w2 h d]|]; reflexivity. }
  rewrite Hd. reflexivity.
Qed.

Lemma productSchema_idempotent_witness :
  productSchema starts_with_https (to_value light_bulb_product)
  = Success light_bulb_product.
Proof.
  apply (productSchema_idempotent starts_with_https light_bulb light_bulb_product).
  reflexivity.
Defined.
